(** * Trace Bank: risk aggregation, policy decision and counterfactual
      explanation

    A shallow embedding of

    - [backend/decision_engine.py]   (module [DecisionEngine]),
    - [2/backend/policy_engine.py]   (module [PolicyEngine]),
    - [2/backend/counterfactual.py]  (module [Counterfactual]),

    followed by the properties of these functions.

    Numbers.  The Python code computes on [int] and [float] values.  They
    are read here as exact rationals ([Q]): comparisons, sums, products
    and quotients are the mathematical ones, and binary floating-point
    rounding error is outside the model.  A division whose divisor can be
    zero raises [ZeroDivisionError] in Python and is modelled as such.

    Module state.  The module-level variables that the functions write
    ([policy], [BLOCK_THRESHOLD], [REVIEW_THRESHOLD]) are an explicit
    state, threaded through a small state-and-exception monad [Py]. *)

From Stdlib Require Import QArith Qround Qabs Qminmax ZArith Lia Lqa.
From stdpp Require Import gmap strings list pretty.

Open Scope Q_scope.

(** ** Python numbers as rationals *)

Module Num.

(** [x >= y], [x > y] and [x < y] as the booleans Python computes. *)
Definition geb (x y : Q) : bool := Qle_bool y x.
Definition gtb (x y : Q) : bool := negb (Qle_bool x y).
Definition ltb (x y : Q) : bool := negb (Qle_bool y x).

(** Nearest integer, ties to the even neighbour. *)
Definition round_half_even (q : Q) : Z :=
  let f := Qfloor q in
  match Qcompare (q - inject_Z f) (1 # 2) with
  | Lt => f
  | Gt => (f + 1)%Z
  | Eq => if Z.even f then f else (f + 1)%Z
  end.

(** Python's [round(x, ndigits)]: the multiple of [10^-ndigits] nearest
    to [x], ties to even. *)
Definition py_round (x : Q) (ndigits : nat) : Q :=
  let scale := inject_Z (10 ^ Z.of_nat ndigits) in
  inject_Z (round_half_even (x * scale)) / scale.

(** Python's [int(x)] on a number: truncation towards zero. *)
Definition py_int (x : Q) : Z := Z.quot (Qnum x) (Zpos (Qden x)).

(** Python's [sum] of a list, from the start value [0]. *)
Definition sum (l : list Q) : Q := fold_left Qplus l 0.

End Num.

(** ** Outcomes of a Python call, and the state monad over them *)

Inductive exn : Type :=
| KeyError (key : string)
| ZeroDivisionError
| InvalidPolicy.   (* named by the specification only: no code path raises it *)

Inductive outcome (A : Type) : Type :=
| Return (a : A)
| Raise (e : exn).
Arguments Return {A} a.
Arguments Raise {A} e.

Definition Py (S A : Type) : Type := S -> outcome A * S.

Definition ret {S A} (a : A) : Py S A := fun s => (Return a, s).

Definition bind {S A B} (m : Py S A) (k : A -> Py S B) : Py S B :=
  fun s =>
    match m s with
    | (Return a, s') => k a s'
    | (Raise e, s') => (Raise e, s')
    end.

Definition get {S} : Py S S := fun s => (Return s, s).
Definition put {S} (s : S) : Py S unit := fun _ => (Return tt, s).

Declare Scope py_scope.
Delimit Scope py_scope with py.
Notation "x <- m ;; k" := (bind m (fun x => k))
  (at level 100, m at next level, right associativity) : py_scope.
Notation "m ;;; k" := (bind m (fun _ => k))
  (at level 100, right associativity) : py_scope.

(** Bind on outcomes alone, for the functions that write no state. *)
Definition obind {A B} (o : outcome A) (k : A -> outcome B) : outcome B :=
  match o with
  | Return a => k a
  | Raise e => Raise e
  end.

Notation "x <~ o ;; k" := (obind o (fun x => k))
  (at level 100, o at next level, right associativity).

Definition lift {S A} (o : outcome A) : Py S A := fun s => (o, s).

(** ** [2/backend/policy_engine.py] *)

Module PolicyEngine.

(** The module-level dict [policy]; its three keys are always present. *)
Record policy : Type := mkPolicy {
  low_threshold : Q;
  review_threshold : Q;
  block_threshold : Q
}.

(** The dict literal the module starts with. *)
Definition initial_policy : policy :=
  {| low_threshold := 30; review_threshold := 60; block_threshold := 85 |}.

(** [policy["low_threshold"] = v] and its two siblings. *)
Definition set_low (v : Q) : Py policy unit :=
  fun p => (Return tt, {| low_threshold := v;
                          review_threshold := review_threshold p;
                          block_threshold := block_threshold p |}).
Definition set_review (v : Q) : Py policy unit :=
  fun p => (Return tt, {| low_threshold := low_threshold p;
                          review_threshold := v;
                          block_threshold := block_threshold p |}).
Definition set_block (v : Q) : Py policy unit :=
  fun p => (Return tt, {| low_threshold := low_threshold p;
                          review_threshold := review_threshold p;
                          block_threshold := v |}).

Definition update_policy (low review block : Q) : Py policy unit :=
  (set_low low ;;; set_review review ;;; set_block block)%py.

Inductive action : Type := APPROVED | REVIEW | BLOCK | CRITICAL_FRAUD.

(** The string each action is in the source. *)
Definition action_label (a : action) : string :=
  match a with
  | APPROVED => "APPROVED"
  | REVIEW => "REVIEW"
  | BLOCK => "BLOCK"
  | CRITICAL_FRAUD => "CRITICAL_FRAUD"
  end.

(** [decide_action] reads [policy] and writes nothing. *)
Definition decide_action (p : policy) (risk_score : Q) : action :=
  if Num.geb risk_score (block_threshold p) then CRITICAL_FRAUD
  else if Num.geb risk_score (review_threshold p) then BLOCK
  else if Num.geb risk_score (low_threshold p) then REVIEW
  else APPROVED.

(** Severity of an action: APPROVED < REVIEW < BLOCK < CRITICAL_FRAUD. *)
Definition severity (a : action) : nat :=
  match a with
  | APPROVED => 0
  | REVIEW => 1
  | BLOCK => 2
  | CRITICAL_FRAUD => 3
  end.

(** What the specification asks of [update]: reject a triple that is out
    of order or out of [[0,100]], and keep the store as it was. *)
Definition valid_triple (low review block : Q) : bool :=
  Qle_bool 0 low && Qle_bool low review && Qle_bool review block
  && Qle_bool block 100.

Definition spec_update (low review block : Q) : Py policy unit :=
  fun p =>
    if valid_triple low review block
    then (Return tt, mkPolicy low review block)
    else (Raise InvalidPolicy, p).

End PolicyEngine.

(** ** [backend/decision_engine.py] *)

Module DecisionEngine.

(** The two module-level globals. *)
Record thresholds : Type := mkThresholds {
  BLOCK_THRESHOLD : Q;
  REVIEW_THRESHOLD : Q
}.

Definition initial_thresholds : thresholds :=
  {| BLOCK_THRESHOLD := 80; REVIEW_THRESHOLD := 50 |}.

(** [update_policy(block_threshold=None, review_threshold=None)]: each
    global is written when its argument is not [None]; the dict of the
    two current values is returned. *)
Definition update_policy (block_threshold review_threshold : option Q)
  : Py thresholds (gmap string Q) :=
  (st <- get ;;
   let b := match block_threshold with
            | Some v => v
            | None => BLOCK_THRESHOLD st
            end in
   let r := match review_threshold with
            | Some v => v
            | None => REVIEW_THRESHOLD st
            end in
   put {| BLOCK_THRESHOLD := b; REVIEW_THRESHOLD := r |} ;;;
   ret (<["block_threshold" := b]> (<["review_threshold" := r]> ∅)))%py.

Inductive decision : Type := BLOCK | REVIEW | FRAUD | APPROVED.

Definition decision_label (d : decision) : string :=
  match d with
  | BLOCK => "BLOCK"
  | REVIEW => "REVIEW"
  | FRAUD => "FRAUD"
  | APPROVED => "APPROVED"
  end.

(** [make_decision] returns the pair (label, reason). *)
Definition make_decision (st : thresholds) (score : Q) : decision * string :=
  if Num.geb score (BLOCK_THRESHOLD st) then (BLOCK, "High risk transaction")
  else if Num.geb score (REVIEW_THRESHOLD st) then (REVIEW, "Needs manual review")
  else if Num.geb score 90 then (FRAUD, "Fraud pattern detected")
  else (APPROVED, "Low risk transaction").

Definition calculate_final_risk (txn_risk behavioural_risk fraud_ring_risk : Q) : Q :=
  Num.py_round (0.4 * txn_risk + 0.3 * behavioural_risk + 0.3 * fraud_ring_risk) 2.


End DecisionEngine.

(** ** [2/backend/counterfactual.py] *)

Module Counterfactual.

(** *** Data *)

(** A transaction dict, by the keys the engine reads; [None] is a key
    that is absent.  The entries of [user_history] are such dicts too. *)
Record txn : Type := mkTxn {
  amount : option Q;
  location : option string;
  vpn_detected : option bool;
  time_context : option string;
  merchant_category : option string
}.

(** An f-string before it is rendered: literal text and the formatted
    values between them.  [Fmt spec v] is [{v:spec}] for a number ([spec]
    empty when the source gives none), [FmtZ n] is [{n}] for an [int]
    computed by [int(..)] or [len(..)], [FmtS s] is [{s}] for a [str]. *)
Inductive frag : Type :=
| Lit (s : string)
| Fmt (spec : string) (v : Q)
| FmtZ (n : Z)
| FmtS (s : string).

(** The values stored in the dicts the engine returns. *)
Inductive pyval : Type :=
| PStr (s : string)
| PFmt (t : list frag)
| PInt (n : Z)
| PList (l : list string).

(** A returned dict, with its keys in the order the literal lists them. *)
Definition entry : Type := list (string * pyval).

(** [risk_breakdown.get(k, 0)] *)
Definition rb_get (risk_breakdown : gmap string Q) (k : string) : Q :=
  default 0 (risk_breakdown !! k).

(** [sum(risk_breakdown.values())] *)
Definition rb_sum (risk_breakdown : gmap string Q) : Q :=
  Num.sum (snd <$> map_to_list risk_breakdown).

(** [l[-10:]] *)
Definition last10 {A} (l : list A) : list A := drop (length l - 10) l.

(** [t.get('amount', 0)] *)
Definition get_amount (t : txn) : Q := default 0 (amount t).

(** [transaction['amount']] *)
Definition index_amount (t : txn) : outcome Q :=
  match amount t with
  | Some a => Return a
  | None => Raise (KeyError "amount")
  end.

(** [x / y], which raises when [y] is zero. *)
Definition py_div (x y : Q) : outcome Q :=
  if Qeq_bool y 0 then Raise ZeroDivisionError else Return (x / y).

(** A line break inside the triple-quoted f-strings: the newline and
    the twelve blanks each of their lines starts with.  [.strip()] removes
    this run at both ends of the rendered text, so the templates below
    start and end at their first and last printed character. *)
Definition nl : frag :=
  Lit (String (Ascii.ascii_of_nat 10) "            ").

(** *** The engine *)

Record CounterfactualEngine : Type := mkEngine {
  decision_threshold : Q
}.

(** [__init__]: "DECLINED starts at 60+ risk score". *)
Definition __init__ : CounterfactualEngine :=
  {| decision_threshold := 60.0 |}.

(** *** Customer view of a decline *)

Definition _generate_decline_counterfactuals_customer
    (transaction : txn) (risk_breakdown : gmap string Q)
    (user_history : list txn) (risk_score : Q)
  : list entry :=
  let suggestions := [] in
  let suggestions :=
    if Num.gtb (rb_get risk_breakdown "amount") 5 then
      suggestions ++
      [[("type", PStr "amount");
        ("title", PStr "Reduce Transaction Amount");
        ("suggestion", PStr "Try a smaller amount or split into multiple transactions")]]
    else suggestions in
  let suggestions :=
    if Num.gtb (rb_get risk_breakdown "location") 10 then
      suggestions ++
      [[("type", PStr "location");
        ("title", PStr "Check Your Connection");
        ("suggestion", PStr "Turn off VPN or proxy if enabled and retry")]]
    else suggestions in
  let suggestions :=
    if Num.gtb (rb_get risk_breakdown "behavior") 8 then
      suggestions ++
      [[("type", PStr "behavior");
        ("title", PStr "Use a Familiar Device");
        ("suggestion", PStr "Try again from your usual device or browser")]]
    else suggestions in
  match suggestions with
  | [] => [[("type", PStr "contact");
            ("title", PStr "Contact Support");
            ("suggestion", PStr "Please contact our support team for assistance")]]
  | _ => take 2 suggestions
  end.

(** *** Optimal amount *)

Definition _find_optimal_amount (current_amount : Q)
    (user_history : list txn) : Q :=
  match user_history with
  | [] => current_amount * 0.5
  | _ =>
    let amounts :=
      map get_amount
          (List.filter (fun t => Num.gtb (get_amount t) 0) (last10 user_history)) in
    match amounts with
    | [] => current_amount * 0.6
    | _ =>
      let avg_amount := Num.sum amounts / inject_Z (Z.of_nat (length amounts)) in
      avg_amount * 1.5
    end
  end.

(** *** Bank view of a decline *)

(** The function first sorts [risk_breakdown.items()] by value into
    [sorted_risks], which nothing reads afterwards: the five blocks below
    run in the order of the source text. *)

(** The block under [if risk_breakdown.get('amount', 0) > 5]. *)
Definition amount_counterfactual
    (transaction : txn) (risk_breakdown : gmap string Q)
    (user_history : list txn) (risk_score : Q) : outcome entry :=
  current_amount <~ index_amount transaction ;;
  let optimal_amount := _find_optimal_amount current_amount user_history in
  ratio <~ py_div (current_amount - optimal_amount) current_amount ;;
  let amount_reduction := ratio * 100 in
  let avg_historical :=
    Num.sum (map get_amount (last10 user_history))
    / inject_Z (Z.max 1 (Z.of_nat (length (last10 user_history)))) in
  let detailed_explanation :=
    [ Lit "AMOUNT ANOMALY DETECTION:";
      nl; Lit "- Current Amount: "; Fmt ",.0f" current_amount; Lit " INR";
      nl; Lit "- Historical Average: "; Fmt ",.0f" avg_historical; Lit " INR (";
      Fmt ".2f" (current_amount / Qmax avg_historical 1); Lit "x baseline)";
      nl; Lit "- 95th Percentile Threshold: "; Fmt ",.0f" optimal_amount; Lit " INR";
      nl; Lit "- Deviation: "; Fmt ".1f" amount_reduction;
      Lit "% above typical spending";
      nl; Lit "- Risk Score Contribution: "; Fmt "" (rb_get risk_breakdown "amount");
      Lit "/50 points";
      nl;
      nl; Lit "MODEL REASONING:";
      nl; Lit "- XGBoost Regressor detects amount as primary fraud indicator";
      nl; Lit "- Training data shows "; Fmt ".0f" amount_reduction;
      Lit "% increase triggers fraud in ";
      Fmt "" (Qmax 50 (Qmin 99 (50 + amount_reduction))); Lit "% of similar cases";
      nl; Lit "- Historical user baseline learning: Established from last ";
      FmtZ (Z.of_nat (length user_history)); Lit " transactions";
      nl; Lit "- Anomaly ratio = "; Fmt ".2f" (current_amount / Qmax avg_historical 1);
      Lit "x (threshold = 1.5x)";
      nl;
      nl; Lit "WHY THIS MATTERS:";
      nl;
      Lit "- Large transactions are fraud risk as they cause immediate customer impact";
      nl; Lit "- Users typically maintain consistent spending patterns";
      nl;
      Lit "- Sudden large purchases often indicate account compromise or fraud ring activity";
      nl; Lit "- Amount-based anomaly has 94% true positive rate in fraud detection" ] in
  Return
    [("type", PStr "amount");
     ("title", PStr "High-Value Transaction Detected");
     ("explanation", PFmt detailed_explanation);
     ("current", PFmt
         [ Lit "Amount: "; Fmt ",.0f" current_amount; Lit " INR | Risk Factor: ";
           Fmt ".1f" (rb_get risk_breakdown "amount"); Lit " points | Anomaly: ";
           Fmt ".1f" amount_reduction; Lit "% above average" ]);
     ("suggested", PFmt
         [ Lit "Reduce to "; Fmt ",.0f" optimal_amount;
           Lit " INR (within 95th percentile) OR split into multiple smaller transactions of ";
           Fmt ",.0f" (optimal_amount / 2); Lit " INR each" ]);
     ("impact", PFmt
         [ Lit "Reduces total risk by "; Fmt ".1f" (rb_get risk_breakdown "amount" * 0.7);
           Lit " points (from "; Fmt ".1f" risk_score; Lit " to ";
           Fmt ".1f" (Qmax 0 (risk_score - rb_get risk_breakdown "amount" * 0.7)); Lit ")" ]);
     ("confidence", PInt 95)].

(** The block under [if risk_breakdown.get('location', 0) > 5]. *)
Definition location_counterfactual
    (transaction : txn) (risk_breakdown : gmap string Q)
    (risk_score : Q) : entry :=
  let detailed_location_explanation :=
    [ Lit "VPN/GEOLOCATION ANOMALY DETECTION:";
      nl; Lit "- Device Location: "; FmtS (default "Unknown" (location transaction));
      nl; Lit "- GPS Match with History: 34% (threshold: 70%)";
      nl; Lit "- VPN/Proxy Detection: XGBoost model score = 0.72/1.0";
      nl; Lit "- Risk Score Contribution: "; Fmt "" (rb_get risk_breakdown "location");
      Lit "/25 points";
      nl;
      nl; Lit "MODEL REASONING:";
      nl;
      Lit "- XGBoost VPN Detection Model trained on 50,000+ legitimate vs VPN transactions";
      nl;
      Lit "- Detection features: IP geolocation variance, DNS leaks, MTU size anomalies, TTL patterns";
      nl;
      Lit "- VPN transactions show 87% higher fraud correlation than normal transactions";
      nl; Lit "- Device has 0 previous transactions from this location";
      nl;
      nl; Lit "FRAUD PATTERN ANALYSIS:";
      nl;
      Lit "- VPN usage indicates either privacy concern (legitimate) or location spoofing (fraud)";
      nl; Lit "- Fraud rings commonly use VPN to appear in legitimate user locations";
      nl; Lit "- 78% of fraud ring transactions detected via VPN inconsistency";
      nl; Lit "- Location variance + device mismatch = 0.89 fraud probability";
      nl;
      nl; Lit "WHY THIS MATTERS:";
      nl; Lit "- Fraudsters use VPNs to obscure their true location";
      nl; Lit "- Legitimate users rarely change location without notice";
      nl;
      Lit "- Combined location + behavior signals are highly predictive of compromise" ] in
  [("type", PStr "location");
   ("title", PStr "VPN/Proxy Detection - Geolocation Risk");
   ("explanation", PFmt detailed_location_explanation);
   ("current", PFmt
       [ Lit "Connection Type: ";
         FmtS (if default false (vpn_detected transaction) then "VPN Detected" else "Normal");
         Lit " | Location Variance: High | Device History Match: Low (34%)" ]);
   ("suggested", PStr "Disable VPN/Proxy and retry from typical location OR verify device identity via SMS/email authentication");
   ("impact", PFmt
       [ Lit "Reduces location risk by ";
         Fmt ".1f" (rb_get risk_breakdown "location" * 0.8); Lit " points (from ";
         Fmt ".1f" risk_score; Lit " to ";
         Fmt ".1f" (Qmax 0 (risk_score - rb_get risk_breakdown "location" * 0.8));
         Lit ")" ]);
   ("confidence", PInt 92)].

(** The block under [if risk_breakdown.get('behavior', 0) > 5]. *)
Definition behavior_counterfactual
    (transaction : txn) (risk_breakdown : gmap string Q)
    (risk_score : Q) : entry :=
  let behavior_score := rb_get risk_breakdown "behavior" in
  let detailed_behavior_explanation :=
    [ Lit "BEHAVIORAL ANOMALY DETECTION:";
      nl; Lit "- Isolation Forest Anomaly Score: ";
      Fmt ".2f" (Qmin 0.99 (behavior_score / 10)); Lit "/1.0";
      nl; Lit "- Deviation from Historical Pattern: "; Fmt ".0f" (behavior_score * 10);
      Lit "%";
      nl; Lit "- Risk Score Contribution: "; Fmt "" (rb_get risk_breakdown "behavior");
      Lit "/15 points";
      nl; Lit "- Time Context: "; FmtS (default "NORMAL" (time_context transaction));
      nl;
      nl; Lit "MODEL REASONING:";
      nl; Lit "- Isolation Forest trained on 100,000+ user behavior profiles";
      nl;
      Lit "- Features: transaction frequency, merchant patterns, time-of-day distribution, device behavior";
      nl; Lit "- Current behavior distance from baseline: ";
      Fmt ".2f" (Qmin 0.99 (behavior_score / 10)); Lit " (threshold: 0.5)";
      nl;
      Lit "- User typically transacts in 3-4 merchant categories; current category is novel";
      nl;
      nl; Lit "PATTERN ANALYSIS:";
      nl; Lit "- Normal users have consistent transaction patterns within days/weeks";
      nl; Lit "- Sudden behavior change = "; Fmt ".0f" (behavior_score * 10);
      Lit "% probability of account compromise";
      nl; Lit "- Fraudsters typically test account with out-of-pattern transactions";
      nl; Lit "- Pattern matching detected "; Fmt ".0f" (90 - behavior_score * 5);
      Lit "% confidence of anomaly";
      nl;
      nl; Lit "WHY THIS MATTERS:";
      nl; Lit "- Behavioral patterns are unique to each user (like fingerprints)";
      nl; Lit "- Fraud typically exhibits behavior completely different from baseline";
      nl; Lit "- Legitimate users rarely break their established patterns suddenly";
      nl; Lit "- Pattern learning helps detect account takeover before major damage" ] in
  [("type", PStr "behavior");
   ("title", PStr "Behavioral Anomaly Detected");
   ("explanation", PFmt detailed_behavior_explanation);
   ("current", PFmt
       [ Lit "Behavior Pattern Deviation: "; Fmt ".0f" (behavior_score * 10);
         Lit "% | Anomaly Score: "; Fmt ".2f" (Qmin 0.99 (behavior_score / 10));
         Lit " | Category Risk: "; Fmt ".1f" (rb_get risk_breakdown "merchant");
         Lit " points" ]);
   ("suggested", PStr "Use device from typical location during normal hours OR increase transaction frequency over next week to establish new baseline pattern");
   ("impact", PFmt
       [ Lit "Reduces behavior risk by "; Fmt ".1f" (behavior_score * 0.6);
         Lit " points (from "; Fmt ".1f" risk_score; Lit " to ";
         Fmt ".1f" (Qmax 0 (risk_score - behavior_score * 0.6)); Lit ")" ]);
   ("confidence", PInt 85)].

(** The block under [if risk_breakdown.get('merchant', 0) > 5]. *)
Definition merchant_counterfactual
    (transaction : txn) (risk_breakdown : gmap string Q)
    (user_history : list txn) (risk_score : Q) : entry :=
  let detailed_merchant_explanation :=
    [ Lit "MERCHANT CATEGORY RISK DETECTION:";
      nl; Lit "- Current Merchant Category: ";
      FmtS (default "unknown" (merchant_category transaction));
      nl; Lit "- Risk Weight: "; Fmt "" (rb_get risk_breakdown "merchant");
      Lit "/15 points";
      nl;
      Lit "- Historical Category Match: 0% (user has no prior transactions in this category)";
      nl; Lit "- Fraud Prevalence in Category: ";
      Fmt ".1f" (rb_get risk_breakdown "merchant" * 15); Lit "%";
      nl;
      nl; Lit "MODEL REASONING:";
      nl;
      Lit "- Merchant categories have different fraud rates (gambling: 15%, retail: 2%)";
      nl; Lit "- XGBoost merchant classifier trained on 1M+ transaction patterns";
      nl; Lit "- User preference learning: Established from ";
      FmtZ (Z.of_nat (length user_history)); Lit " historical transactions";
      nl; Lit "- Novel category + high-risk category = elevated fraud probability";
      nl;
      nl; Lit "FRAUD PATTERN ANALYSIS:";
      nl; Lit "- Gambling & cryptocurrency merchants have 8-10x higher fraud rates";
      nl; Lit "- Fraudsters often test stolen cards on high-margin merchants first";
      nl; Lit "- Legitimate users rarely jump to high-risk categories suddenly";
      nl; Lit "- Category anomaly combined with other signals = ";
      Fmt ".0f" (88 + rb_get risk_breakdown "merchant" * 2); Lit "% fraud confidence";
      nl;
      nl; Lit "WHY THIS MATTERS:";
      nl; Lit "- Merchant type reveals user intent and risk profile";
      nl; Lit "- High-risk merchants (gambling, adult sites) are fraud hotspots";
      nl; Lit "- Sudden category switch indicates either account compromise or testing";
      nl; Lit "- Merchant pattern is strong predictor of fraudster identity" ] in
  [("type", PStr "merchant");
   ("title", PStr "High-Risk Merchant Category");
   ("explanation", PFmt detailed_merchant_explanation);
   ("current", PFmt
       [ Lit "Merchant Category: ";
         FmtS (default "unknown" (merchant_category transaction));
         Lit " (High Risk) | Category Risk Component: ";
         Fmt ".1f" (rb_get risk_breakdown "merchant");
         Lit " points | Historical Category Match: 0%" ]);
   ("suggested", PStr "Choose from typical merchant categories: Retail, Groceries, Restaurants OR perform additional identity verification");
   ("impact", PFmt
       [ Lit "Reduces merchant risk by ";
         Fmt ".1f" (rb_get risk_breakdown "merchant" * 0.6); Lit " points (from ";
         Fmt ".1f" risk_score; Lit " to ";
         Fmt ".1f" (Qmax 0 (risk_score - rb_get risk_breakdown "merchant" * 0.6));
         Lit ")" ]);
   ("confidence", PInt 88)].

(** The block under [if risk_breakdown.get('velocity', 0) > 3]. *)
Definition velocity_counterfactual
    (risk_breakdown : gmap string Q) (risk_score : Q) : entry :=
  let detailed_velocity_explanation :=
    [ Lit "TRANSACTION VELOCITY SPIKE DETECTION:";
      nl; Lit "- Transactions in Last Hour: ";
      FmtZ (Num.py_int (rb_get risk_breakdown "velocity" * 2));
      nl; Lit "- User's Average Hourly Velocity: ";
      FmtZ (Num.py_int (rb_get risk_breakdown "velocity"));
      nl; Lit "- Spike Magnitude: "; Fmt ".0f" (rb_get risk_breakdown "velocity" * 30);
      Lit "% above baseline";
      nl; Lit "- Risk Score Contribution: "; Fmt "" (rb_get risk_breakdown "velocity");
      Lit "/10 points";
      nl;
      nl; Lit "MODEL REASONING:";
      nl; Lit "- Velocity scoring based on user's historical transaction frequency";
      nl; Lit "- XGBoost velocity model detects fraud testing patterns (score: 0.81)";
      nl;
      Lit "- Fraudsters typically execute multiple rapid transactions to test card validity";
      nl; Lit "- Legitimate users maintain steady, predictable transaction rhythm";
      nl;
      nl; Lit "FRAUD PATTERN ANALYSIS:";
      nl; Lit "- Fraud rings execute 5-10 test transactions within minutes";
      nl; Lit "- Each failed transaction gives fraudster feedback on card status";
      nl; Lit "- Legitimate users rarely spike transactions suddenly";
      nl; Lit "- Velocity spike + amount anomaly = 0.91 fraud probability";
      nl;
      nl; Lit "WHY THIS MATTERS:";
      nl; Lit "- Transaction frequency reveals usage pattern uniqueness";
      nl;
      Lit "- Sudden velocity change indicates either automated fraud or account compromise";
      nl; Lit "- Card testing is primary early-stage fraud indicator";
      nl; Lit "- Velocity rules stop 42% of fraud attempts before approval" ] in
  [("type", PStr "velocity");
   ("title", PStr "Transaction Velocity Spike");
   ("explanation", PFmt detailed_velocity_explanation);
   ("current", PFmt
       [ Lit "Velocity Score: "; Fmt ".1f" (rb_get risk_breakdown "velocity");
         Lit "/10 | Recent Transactions: ";
         FmtZ (Num.py_int (rb_get risk_breakdown "velocity" * 2));
         Lit " in last hour | Baseline: ";
         FmtZ (Num.py_int (rb_get risk_breakdown "velocity")); Lit " per hour" ]);
   ("suggested", PStr "Spread transactions over 2-3 hours OR wait 30 minutes before retry to reduce velocity flag");
   ("impact", PFmt
       [ Lit "Reduces velocity risk by ";
         Fmt ".1f" (rb_get risk_breakdown "velocity" * 0.5); Lit " points (from ";
         Fmt ".1f" risk_score; Lit " to ";
         Fmt ".1f" (Qmax 0 (risk_score - rb_get risk_breakdown "velocity" * 0.5));
         Lit ")" ]);
   ("confidence", PInt 79)].

Definition _generate_decline_counterfactuals_bank
    (transaction : txn) (risk_breakdown : gmap string Q)
    (user_history : list txn) (risk_score : Q)
  : outcome (list entry) :=
  let counterfactuals := [] in
  counterfactuals <~
    (if Num.gtb (rb_get risk_breakdown "amount") 5 then
       e <~ amount_counterfactual transaction risk_breakdown user_history risk_score ;;
       Return (counterfactuals ++ [e])
     else Return counterfactuals) ;;
  let counterfactuals :=
    if Num.gtb (rb_get risk_breakdown "location") 5 then
      counterfactuals ++ [location_counterfactual transaction risk_breakdown risk_score]
    else counterfactuals in
  let counterfactuals :=
    if Num.gtb (rb_get risk_breakdown "behavior") 5 then
      counterfactuals ++ [behavior_counterfactual transaction risk_breakdown risk_score]
    else counterfactuals in
  let counterfactuals :=
    if Num.gtb (rb_get risk_breakdown "merchant") 5 then
      counterfactuals ++
      [merchant_counterfactual transaction risk_breakdown user_history risk_score]
    else counterfactuals in
  let counterfactuals :=
    if Num.gtb (rb_get risk_breakdown "velocity") 3 then
      counterfactuals ++ [velocity_counterfactual risk_breakdown risk_score]
    else counterfactuals in
  Return (match counterfactuals with
          | [] => []
          | _ => take 4 counterfactuals
          end).

(** *** Approval *)

Definition _generate_approval_explanations_customer
    (transaction : txn) (risk_breakdown : gmap string Q) (risk_score : Q)
  : list entry :=
  [[("type", PStr "approval");
    ("title", PStr "Transaction Approved");
    ("message", PStr "Your transaction has been processed successfully.")]].

Definition _generate_approval_explanations_bank
    (transaction : txn) (risk_breakdown : gmap string Q) (risk_score : Q)
  : list entry :=
  let positive_factors := [] in
  let positive_factors :=
    if Num.ltb (rb_get risk_breakdown "amount") 5
    then positive_factors ++ ["Amount is within normal spending range"]
    else positive_factors in
  let positive_factors :=
    if Num.ltb (rb_get risk_breakdown "location") 5
    then positive_factors ++ ["Location matches device history"]
    else positive_factors in
  let positive_factors :=
    if Num.ltb (rb_get risk_breakdown "behavior") 5
    then positive_factors ++ ["Behavior matches typical patterns"]
    else positive_factors in
  let positive_factors :=
    if Num.ltb (rb_get risk_breakdown "merchant") 5
    then positive_factors ++ ["Merchant is in typical categories"]
    else positive_factors in
  let positive_factors :=
    match positive_factors with
    | [] => ["Transaction matches user profile";
             "No suspicious patterns detected"]
    | _ => positive_factors
    end in
  [[("type", PStr "approval");
    ("title", PStr "Transaction Approved");
    ("explanation", PStr "Risk analysis complete");
    ("confidence", PFmt [ Fmt ".0f" (100 - rb_sum risk_breakdown); Lit "%" ]);
    ("positive_factors", PList positive_factors);
    ("message", PStr "Transaction processed successfully.")]].

(** *** The entry point *)

(** [generate_counterfactuals] is a method of the engine object: the
    state it runs in is [self], of which it reads [decision_threshold].
    It returns the pair (customer explanations, bank explanations). *)
Definition generate_counterfactuals
    (transaction : txn) (risk_score : Q) (risk_breakdown : gmap string Q)
    (user_history : list txn)
  : Py CounterfactualEngine (list entry * list entry) :=
  (self <- get ;;
   if Num.ltb risk_score (decision_threshold self) then
     let customer :=
       _generate_approval_explanations_customer transaction risk_breakdown risk_score in
     let bank :=
       _generate_approval_explanations_bank transaction risk_breakdown risk_score in
     ret (customer, bank)
   else
     let customer :=
       _generate_decline_counterfactuals_customer
         transaction risk_breakdown user_history risk_score in
     bank <- lift (_generate_decline_counterfactuals_bank
                     transaction risk_breakdown user_history risk_score) ;;
     ret (customer, bank))%py.

(** *** Churn *)

(** The two locals [churn_probability] and [revenue_at_risk] of
    [calculate_churn_impact]. *)
Definition churn_locals (decision : string) (risk_score user_value : Q) : Q * Q :=
  if String.eqb decision "DECLINED" then
    let churn_probability := Qmin 0.5 ((risk_score / 100) * 0.5) in
    let revenue_at_risk := churn_probability * user_value in
    (churn_probability, revenue_at_risk)
  else
    let churn_probability := 0.02 in
    let revenue_at_risk := 0 in
    (churn_probability, revenue_at_risk).

(** The default of the parameter [user_value]. *)
Definition default_user_value : Q := 1000.0.

Definition calculate_churn_impact (decision : string) (risk_score user_value : Q)
  : entry :=
  let '(churn_probability, revenue_at_risk) :=
    churn_locals decision risk_score user_value in
  [("churn_probability", PFmt [ Fmt ".1f" (churn_probability * 100); Lit "%" ]);
   ("revenue_at_risk", PFmt [ Fmt ",.0f" revenue_at_risk ]);
   ("retention_score", PFmt [ Fmt ".1f" (100 - churn_probability * 100); Lit "/100" ]);
   ("recommendation",
    PStr (if Num.gtb churn_probability 0.2
          then "Consider manual review or outreach"
          else "Decision appropriate"))].

(** The module-level instance [counterfactual_engine]. *)
Definition counterfactual_engine : CounterfactualEngine := __init__.

End Counterfactual.

(** ** Vocabulary for the statements about the explanations *)

Module Explain.

Import Counterfactual.

(** *** Numbers in an explanation *)

Definition is_digit (c : Ascii.ascii) : bool :=
  let n := Ascii.nat_of_ascii c in (48 <=? n)%nat && (n <=? 57)%nat.

Fixpoint digit_free (s : string) : bool :=
  match s with
  | EmptyString => true
  | String c s' => negb (is_digit c) && digit_free s'
  end.

(** A value is number-free when it is fixed text without a digit: no
    formatted value, no integer. *)
Definition number_free (v : pyval) : bool :=
  match v with
  | PStr s => digit_free s
  | PList l => forallb digit_free l
  | PFmt _ => false
  | PInt _ => false
  end.

Definition entry_number_free (e : entry) : bool :=
  forallb (fun kv => number_free (snd kv)) e.

(** [mentions v e]: some f-string of the dict [e] formats the number [v]. *)
Definition mentions (v : Q) (e : entry) : Prop :=
  exists k t spec w, In (k, PFmt t) e /\ In (Fmt spec w) t /\ w == v.

(** The bank view [bank] reports the risk of category [c]: one of its
    entries formats the number [risk_breakdown.get(c, 0)]. *)
Definition bank_reports (risk_breakdown : gmap string Q) (bank : list entry)
    (c : string) : Prop :=
  exists e, In e bank /\ mentions (rb_get risk_breakdown c) e.

(** [e['type']] *)
Fixpoint entry_type (e : entry) : option string :=
  match e with
  | [] => None
  | (k, v) :: e' =>
    if String.eqb k "type"
    then match v with PStr s => Some s | _ => None end
    else entry_type e'
  end.

(** *** The customer view, as the specification words it *)

(** Category, mention threshold, title and suggestion, in priority order. *)
Definition customer_templates : list (string * Q * string * string) :=
  [("amount", 5, "Reduce Transaction Amount",
    "Try a smaller amount or split into multiple transactions");
   ("location", 10, "Check Your Connection",
    "Turn off VPN or proxy if enabled and retry");
   ("behavior", 8, "Use a Familiar Device",
    "Try again from your usual device or browser")].

Definition render_suggestion (t : string * Q * string * string) : entry :=
  let '(category, _, title, suggestion) := t in
  [("type", PStr category); ("title", PStr title); ("suggestion", PStr suggestion)].

Definition contact_support : entry :=
  [("type", PStr "contact");
   ("title", PStr "Contact Support");
   ("suggestion", PStr "Please contact our support team for assistance")].

(** The templates of the categories whose risk exceeds the threshold. *)
Definition qualifying (risk_breakdown : gmap string Q)
  : list (string * Q * string * string) :=
  List.filter (fun t => let '(category, threshold, _, _) := t in
                        Num.gtb (rb_get risk_breakdown category) threshold)
              customer_templates.

Definition spec_customer (risk_breakdown : gmap string Q) : list entry :=
  match qualifying risk_breakdown with
  | [] => [contact_support]
  | qs => take 2 (map render_suggestion qs)
  end.

(** *** The bank view *)

(** Category and bank threshold, in the order of evaluation. *)
Definition bank_thresholds : list (string * Q) :=
  [("amount", 5); ("location", 5); ("behavior", 5); ("merchant", 5);
   ("velocity", 3)].

(** The categories the bank view reports: above their threshold, the
    first four of them. *)
Definition bank_categories (risk_breakdown : gmap string Q) : list string :=
  take 4 (map fst
            (List.filter (fun t => Num.gtb (rb_get risk_breakdown (fst t)) (snd t))
                         bank_thresholds)).

(** *** The two paths of [generate_counterfactuals] *)

Definition approval_output (transaction : txn) (risk_score : Q)
    (risk_breakdown : gmap string Q) : outcome (list entry * list entry) :=
  Return (_generate_approval_explanations_customer transaction risk_breakdown risk_score,
          _generate_approval_explanations_bank transaction risk_breakdown risk_score).

Definition decline_output (transaction : txn) (risk_score : Q)
    (risk_breakdown : gmap string Q) (user_history : list txn)
  : outcome (list entry * list entry) :=
  bank <~ _generate_decline_counterfactuals_bank
            transaction risk_breakdown user_history risk_score ;;
  Return (_generate_decline_counterfactuals_customer
            transaction risk_breakdown user_history risk_score, bank).

(** *** Sample inputs *)

(** The risk breakdown of the example in the specification. *)
Definition amount_only : gmap string Q :=
  <["amount" := 10]> (<["location" := 0]> (<["behavior" := 0]>
    (<["merchant" := 0]> (<["velocity" := 0]> ∅)))).

(** A breakdown in which no category reaches a threshold. *)
Definition all_low : gmap string Q :=
  <["amount" := 3]> (<["location" := 4]> (<["behavior" := 2]>
    (<["merchant" := 1]> (<["velocity" := 1]> ∅)))).

(** A breakdown in which every category exceeds every threshold, the
    location risk being the largest. *)
Definition all_high : gmap string Q :=
  <["amount" := 6]> (<["location" := 25]> (<["behavior" := 15]>
    (<["merchant" := 15]> (<["velocity" := 10]> ∅)))).

Definition sample_txn : txn :=
  {| amount := Some 50000; location := Some "Mumbai, India";
     vpn_detected := Some false; time_context := Some "NORMAL";
     merchant_category := Some "retail" |}.

End Explain.

(** ** [backend/main.py]: the rule-based evaluation and the audit list *)

Module Main.

(** The dict [evaluate] returns. *)
Record evaluation : Type := mkEvaluation {
  risk_score : Z;
  reasons : list string
}.

(** [txn.get(k, 0)] on the request body. *)
Definition txn_get (txn : gmap string Q) (k : string) : Q :=
  default 0 (txn !! k).

Definition evaluate (txn : gmap string Q) : evaluation :=
  let risk_score := 0%Z in
  let reasons := [] in
  let '(risk_score, reasons) :=
    if Num.gtb (txn_get txn "amount") 50000
    then ((risk_score + 30)%Z, reasons ++ ["High transaction amount"])
    else (risk_score, reasons) in
  let '(risk_score, reasons) :=
    if Num.gtb (txn_get txn "velocity_24h") 5
    then ((risk_score + 25)%Z, reasons ++ ["High transaction frequency"])
    else (risk_score, reasons) in
  let '(risk_score, reasons) :=
    if Num.gtb (txn_get txn "otp_failures") 2
    then ((risk_score + 20)%Z, reasons ++ ["Multiple OTP failures"])
    else (risk_score, reasons) in
  let '(risk_score, reasons) :=
    if Num.ltb (txn_get txn "tenure_months") 3
    then ((risk_score + 15)%Z, reasons ++ ["New customer"])
    else (risk_score, reasons) in
  {| risk_score := risk_score; reasons := reasons |}.

(** The module-level list [audit_logs] is the state; [A] is the type of
    the dicts posted to [/audit]. *)
Record audit_saved : Type := mkAuditSaved {
  message : string;
  total_logs : nat
}.

Definition save_audit {A} (data : A) : Py (list A) audit_saved :=
  (logs <- get ;;
   put (logs ++ [data]) ;;;
   ret {| message := "Audit saved successfully";
          total_logs := length (logs ++ [data]) |})%py.

Definition view_audit_log {A} : Py (list A) (list A) := get.

End Main.

(** ** [backend/models.py] and [backend/audit.py] *)

Module Audit.

Record Transaction : Type := mkTransaction {
  amount : Q;
  location_distance_km : Q;
  is_new_device : bool;
  hour : Z
}.

Record Decision : Type := mkDecision {
  transaction_risk : Q;
  behavioral_risk : Q;
  final_risk : Q;
  action : string;
  explanation : string
}.

(** An element of [AUDIT_LOG]: the two dicts [tx.dict()] and
    [decision.dict()], which hold the fields of the two models. *)
Record record : Type := mkRecord {
  transaction : Transaction;
  decision : Decision
}.

Definition log_decision (tx : Transaction) (decision : Decision)
  : Py (list record) unit :=
  (log <- get ;;
   put (log ++ [{| transaction := tx; decision := decision |}]))%py.

Definition get_audit_log : Py (list record) (list record) := get.

End Audit.

(** Running a list of calls one after the other, as a caller does. *)
Fixpoint run_all {S A} (calls : list (Py S A)) : Py S (list A) :=
  match calls with
  | [] => ret []
  | c :: rest => (a <- c ;; others <- run_all rest ;; ret (a :: others))%py
  end.

(** ** [backend/explanation_engine.py] *)

Module ExplanationEngine.

(** The module defines [generate_explanation] twice; the name is bound to
    the second definition, the one of a single argument, modelled here.
    [V] is the type of the values of [decision_data]. *)
Record risk_breakdown (V : Type) : Type := mkRiskBreakdown {
  transaction_risk : V;
  behavioural_risk : V;
  fraud_ring_risk : V
}.
Arguments mkRiskBreakdown {V}.

Record explanation (V : Type) : Type := mkExplanation {
  final_decision : V;
  breakdown : risk_breakdown V;
  key_reasons : V
}.
Arguments mkExplanation {V}.

(** [d[k]] *)
Definition index {V} (d : gmap string V) (k : string) : outcome V :=
  match d !! k with
  | Some v => Return v
  | None => Raise (KeyError k)
  end.

(** The dict literal evaluates its values in the order they are written. *)
Definition generate_explanation {V} (decision_data : gmap string V)
  : outcome (explanation V) :=
  final_decision <~ index decision_data "decision" ;;
  transaction_risk <~ index decision_data "txn_risk" ;;
  behavioural_risk <~ index decision_data "behavioural_risk" ;;
  fraud_ring_risk <~ index decision_data "fraud_ring_risk" ;;
  key_reasons <~ index decision_data "reasons" ;;
  Return (mkExplanation final_decision
            (mkRiskBreakdown transaction_risk behavioural_risk fraud_ring_risk)
            key_reasons).

(** The keys [generate_explanation] reads, in the order it reads them. *)
Definition required_keys : list string :=
  ["decision"; "txn_risk"; "behavioural_risk"; "fraud_ring_risk"; "reasons"].

End ExplanationEngine.

(** ** [backend/ml_engine.py]: what does not depend on the classifier *)

Module MLEngine.





(** The training file and what [save_transaction] and [retrain_model] do
    to the engine.  The classifier, pandas and the file system are outside
    the model: [data_file] holds the rows of [training_data.csv] ([None] when
    the file is absent; writing and reading it back is assumed lossless),
    [fits] lists the number of rows of each [self.model.fit], oldest first,
    and [saved] counts the calls of [save_model]; fitting and saving are
    assumed not to raise. *)
Record ml_state : Type := mkMLState {
  data_file : option (list (gmap string Q));
  is_trained : bool;
  fits : list nat;
  saved : nat
}.

Definition retrain_model (df : option (list (gmap string Q))) : Py ml_state unit :=
  (self <- get ;;
   let df :=
     match df with
     | None => data_file self
     | Some df => Some df
     end in
   match df with
   | None => ret tt
   | Some df =>
     if (length df <? 5)%nat then ret tt
     else
       put {| data_file := data_file self;
              is_trained := true;
              fits := fits self ++ [length df];
              saved := S (saved self) |}
   end)%py.

Definition save_transaction (features : gmap string Q) (label : Q)
  : Py ml_state unit :=
  (self <- get ;;
   let row := <["label" := label]> features in
   let df :=
     match data_file self with
     | Some rows => rows ++ [row]
     | None => [row]
     end in
   put {| data_file := Some df; is_trained := is_trained self;
          fits := fits self; saved := saved self |} ;;;
   if (10 <=? length df)%nat && (length df mod 10 =? 0)%nat
   then retrain_model (Some df)
   else ret tt)%py.

End MLEngine.

(** ** [backend/scenario_engine.py] *)

Module ScenarioEngine.

(** What lies outside the model is given to the functions: the numbers
    and choices the source draws from [random] are arguments named after the
    draw, the clock readings are the texts [datetime...isoformat()] returns,
    and [md5_hexdigest s] is [hashlib.md5(s.encode()).hexdigest()]. *)

(** The scalar values of a [transaction_data] dict. *)
Inductive jvalue : Type :=
| JStr (s : string)
| JNum (q : Q)
| JBool (b : bool)
| JNull.

(** [_calculate_ring_confidence]; [variance] is the number drawn by
    [random.uniform(-5, 5)]. *)
Definition _calculate_ring_confidence (ring_size unique_roles : Z) (variance : Q) : Q :=
  let size_factor := Qmin 1.0 (inject_Z ring_size / 10) * 40 in
  let role_factor := Qmin 1.0 (inject_Z unique_roles / 5) * 30 in
  let sharing_factor := 25 in
  let confidence := size_factor + role_factor + sharing_factor + variance in
  Num.py_round (Qmin 99 (Qmax 50 confidence)) 1.

(** The dict [synthetic_behavior]. *)
Record behavior : Type := mkBehavior {
  typing_speed : Q;
  mouse_consistency : Q;
  session_duration : Q;
  click_count : Z;
  scroll_depth : Q;
  is_robotic : bool;
  timestamp : string
}.

(** [_calculate_anomaly_score]; [noise] is the number drawn by
    [random.uniform(0, 10)]. *)
Definition _calculate_anomaly_score (behavior : behavior) (anomaly_type : string)
    (noise : Q) : Q :=
  let score := 0 in
  let score :=
    if Num.gtb (typing_speed behavior) 100 || Num.ltb (typing_speed behavior) 20
    then score + 25 else score in
  let score :=
    if Num.gtb (mouse_consistency behavior) 95 || Num.ltb (mouse_consistency behavior) 50
    then score + 20 else score in
  let score :=
    if Num.ltb (session_duration behavior) 60 || Num.gtb (session_duration behavior) 1200
    then score + 15 else score in
  let score := if is_robotic behavior then score + 30 else score in
  let score :=
    if String.eqb anomaly_type "robotic" then score + 10
    else if String.eqb anomaly_type "unusual_timing" then score + 5
    else score in
  Num.py_round (Qmin 95 (score + noise)) 1.

Definition _get_anomaly_indicators (anomaly_type : string) (behavior : behavior)
  : list string :=
  if String.eqb anomaly_type "robotic" then
    ["Typing speed indicates automated input";
     "Mouse movement pattern is too consistent";
     "Session duration abnormally short";
     "Behavior matches known bot patterns"]
  else if String.eqb anomaly_type "unusual_timing" then
    ["Transaction timing outside normal user hours";
     "Session duration abnormally long";
     "Erratic interaction patterns detected"]
  else if String.eqb anomaly_type "device_mismatch" then
    ["Device fingerprint does not match history";
     "New device detected for this account";
     "Browser/OS combination unusual for user"]
  else [].

(** An entry of [self.anomaly_patterns]; only one of them has the key
    [new_device]. *)
Record pattern : Type := mkPattern {
  p_typing_speed : Q;
  p_mouse_consistency : Q;
  p_session_duration : Q;
  p_is_robotic : bool;
  p_new_device : option bool
}.

(** [self.anomaly_patterns] and [self.ring_roles], set by [__init__] and
    never written afterwards. *)
Definition anomaly_patterns : gmap string pattern :=
  <["robotic" := mkPattern 150 99 45 true None]>
  (<["unusual_timing" := mkPattern 30 40 1800 false None]>
  (<["device_mismatch" := mkPattern 60 70 120 false (Some true)]> ∅)).

Definition ring_roles : list string :=
  ["mule"; "coordinator"; "beneficiary"; "money_launderer"; "recruiter"].

(** [self.ring_roles[i % len(self.ring_roles)]] *)
Definition member_role (i : nat) : string :=
  default "" (ring_roles !! (i mod length ring_roles)%nat).

(** The attributes of the engine that the scenarios write. *)
Record engine : Type := mkEngine {
  fraud_ring_members : gmap string (list string);
  shared_devices : gmap string (list string);
  shared_ips : gmap string (list string)
}.

(** [__init__] *)
Definition __init__ : engine :=
  {| fraud_ring_members := ∅; shared_devices := ∅; shared_ips := ∅ |}.

(** [if key not in registry: registry[key] = []] followed by
    [registry[key].extend(user_ids)]. *)
Definition extend_registry (registry : gmap string (list string)) (key : string)
    (user_ids : list string) : gmap string (list string) :=
  let registry :=
    match registry !! key with
    | None => <[key := []]> registry
    | Some _ => registry
    end in
  <[key := default [] (registry !! key) ++ user_ids]> registry.

Record ring_member : Type := mkRingMember {
  m_user_id : string;
  m_role : string;
  m_device_id : string;
  m_ip_address : string;
  m_join_date : string
}.

(** The dict under the key [scenario_metadata] of a fraud ring. *)
Record ring_metadata : Type := mkRingMetadata {
  md_type : string;
  md_ring_id : string;
  md_ring_size : nat;
  md_role_density : gmap string nat;
  md_confidence : Q;
  md_ring_members : list ring_member;
  md_shared_device_users : nat;
  md_shared_ip_users : nat
}.

(** The dict a fraud ring scenario returns: [scenario_metadata] is the
    value of that key, [fields] holds every other key. *)
Record ring_scenario : Type := mkRingScenario {
  fields : gmap string jvalue;
  scenario_metadata : ring_metadata
}.

(** What [generate_fraud_ring_scenario] draws: the ring size
    ([random.randint(5, 8)]), the last two parts of the address
    ([random.randint(1, 255)] twice), the join date of each member and the
    variance of the confidence. *)
Record ring_draws : Type := mkRingDraws {
  ring_size : nat;
  ip_third : nat;
  ip_fourth : nat;
  join_date : nat -> string;
  variance : Q
}.

(** What [generate_behavioral_anomaly_scenario] draws. *)
Record anomaly_draws : Type := mkAnomalyDraws {
  anomaly_type : string;      (* random.choice of the three types *)
  typing_noise : Q;           (* random.uniform(-5, 5) *)
  mouse_noise : Q;            (* random.uniform(-3, 3) *)
  session_noise : Q;          (* random.uniform(-10, 10) *)
  clicks : Z;                 (* random.randint(2, 100) or random.randint(10, 30) *)
  scroll : Q;                 (* random.uniform(0.3, 0.9) *)
  now : string;               (* datetime.now().isoformat() *)
  score_noise : Q;            (* random.uniform(0, 10) in _calculate_anomaly_score *)
  confidence_noise : Q        (* random.uniform(0, 10) *)
}.

Record device_data : Type := mkDeviceData {
  device_id : string;
  is_new_device : bool;
  user_agent : string;
  screen_resolution : string;
  fingerprint : string
}.

(** The dict under the key [scenario_metadata] of a behavioral anomaly. *)
Record anomaly_metadata : Type := mkAnomalyMetadata {
  am_type : string;
  am_anomaly_type : string;
  am_anomaly_score : Q;
  am_anomaly_indicators : list string;
  am_detection_confidence : Q
}.

Record anomaly_scenario : Type := mkAnomalyScenario {
  a_fields : gmap string jvalue;
  synthetic_behavior : behavior;
  synthetic_device : device_data;
  a_scenario_metadata : anomaly_metadata
}.

Section Hash.

Variable md5_hexdigest : string -> string.

(** One turn of the loop over [range(ring_size)]: the member is appended
    and its role counted. *)
Definition add_member (ring_id shared_device_id shared_ip : string)
    (join_date : nat -> string)
    (acc : list ring_member * gmap string nat) (i : nat)
  : list ring_member * gmap string nat :=
  let '(ring_members, role_distribution) := acc in
  let member_id := "ring_member_" +:+ ring_id +:+ "_" +:+ pretty i in
  let role := member_role i in
  let role_distribution :=
    <[role := (default 0%nat (role_distribution !! role) + 1)%nat]> role_distribution in
  (ring_members ++
     [{| m_user_id := member_id; m_role := role; m_device_id := shared_device_id;
         m_ip_address := shared_ip; m_join_date := join_date i |}],
   role_distribution).

Definition generate_fraud_ring_scenario (base_user_id : string)
    (transaction_data : gmap string jvalue) (draws : ring_draws)
  : Py engine ring_scenario :=
  (let ring_id := "ring_" +:+ String.substring 0 8 (md5_hexdigest base_user_id) in
   let ring_size := ring_size draws in
   let shared_device_id :=
     "device_fraud_" +:+ String.substring 0 12 (md5_hexdigest ring_id) in
   let shared_ip :=
     "192.168." +:+ pretty (ip_third draws) +:+ "." +:+ pretty (ip_fourth draws) in
   let '(ring_members, role_distribution) :=
     fold_left (add_member ring_id shared_device_id shared_ip (join_date draws))
               (seq 0 ring_size) ([], ∅) in
   self <- get ;;
   let devices :=
     extend_registry (shared_devices self) shared_device_id
                     (map m_user_id ring_members) in
   let ips :=
     extend_registry (shared_ips self) shared_ip (map m_user_id ring_members) in
   put {| fraud_ring_members := fraud_ring_members self;
          shared_devices := devices; shared_ips := ips |} ;;;
   let confidence :=
     _calculate_ring_confidence (Z.of_nat ring_size)
                                (Z.of_nat (size role_distribution))
                                (variance draws) in
   ret {| fields :=
            <["ip_address" := JStr shared_ip]>
              (<["device_id" := JStr shared_device_id]>
                 (delete "scenario_metadata" transaction_data));
          scenario_metadata :=
            {| md_type := "fraud_ring";
               md_ring_id := ring_id;
               md_ring_size := ring_size;
               md_role_density := role_distribution;
               md_confidence := confidence;
               md_ring_members := ring_members;
               md_shared_device_users :=
                 length (default [] (devices !! shared_device_id));
               md_shared_ip_users := length (default [] (ips !! shared_ip)) |} |})%py.

(** [generate_behavioral_anomaly_scenario] reads the engine and writes
    nothing. *)
Definition generate_behavioral_anomaly_scenario (user_id : string)
    (transaction_data : gmap string jvalue) (draws : anomaly_draws)
  : outcome anomaly_scenario :=
  let anomaly_type := anomaly_type draws in
  anomaly_pattern <~
    match anomaly_patterns !! anomaly_type with
    | Some p => Return p
    | None => Raise (KeyError anomaly_type)
    end ;;
  let synthetic_behavior :=
    {| typing_speed := p_typing_speed anomaly_pattern + typing_noise draws;
       mouse_consistency := p_mouse_consistency anomaly_pattern + mouse_noise draws;
       session_duration := p_session_duration anomaly_pattern + session_noise draws;
       click_count := clicks draws;
       scroll_depth :=
         if String.eqb anomaly_type "robotic" then 0.1 else scroll draws;
       is_robotic := p_is_robotic anomaly_pattern;
       timestamp := now draws |} in
  let anomaly_score :=
    _calculate_anomaly_score synthetic_behavior anomaly_type (score_noise draws) in
  let device_data :=
    {| device_id :=
         "device_anomaly_" +:+ String.substring 0 12 (md5_hexdigest user_id);
       is_new_device := default false (p_new_device anomaly_pattern);
       user_agent := "Mozilla/5.0 (Anomaly Test)";
       screen_resolution := "1920x1080";
       fingerprint :=
         String.substring 0 16 (md5_hexdigest (user_id +:+ "_anomaly")) |} in
  Return
    {| a_fields :=
         delete "scenario_metadata"
           (delete "synthetic_device" (delete "synthetic_behavior" transaction_data));
       synthetic_behavior := synthetic_behavior;
       synthetic_device := device_data;
       a_scenario_metadata :=
         {| am_type := "behavioral_anomaly";
            am_anomaly_type := anomaly_type;
            am_anomaly_score := anomaly_score;
            am_anomaly_indicators :=
              _get_anomaly_indicators anomaly_type synthetic_behavior;
            am_detection_confidence :=
              Qmin 95 (anomaly_score + confidence_noise draws) |} |}.

End Hash.

(** The draws of [generate_behavioral_anomaly_scenario] within the ranges
    of the source. *)
Definition anomaly_draws_in_range (draws : anomaly_draws) : Prop :=
  -5 <= typing_noise draws <= 5 /\ -3 <= mouse_noise draws <= 3 /\
  -10 <= session_noise draws <= 10 /\
  0 <= score_noise draws <= 10 /\ 0 <= confidence_noise draws <= 10.

(** Sample draws. *)
Definition robotic_draws : anomaly_draws :=
  {| anomaly_type := "robotic"; typing_noise := -5; mouse_noise := -3;
     session_noise := 10; clicks := 2; scroll := 0.5;
     now := "2026-01-01T00:00:00"; score_noise := 0; confidence_noise := 0 |}.

Definition ring_of_six : ring_draws :=
  {| ring_size := 6; ip_third := 12; ip_fourth := 34;
     join_date := fun _ => "2026-01-01T00:00:00"; variance := -2 |}.

(** The loop of [generate_fraud_ring_scenario] run for [n] members, and the
    member it builds at index [i]. *)
Definition ring_loop (ring_id shared_device_id shared_ip : string)
    (join_date : nat -> string) (n : nat) : list ring_member * gmap string nat :=
  fold_left (add_member ring_id shared_device_id shared_ip join_date)
            (seq 0 n) ([], ∅).

Definition ring_member_at (ring_id shared_device_id shared_ip : string)
    (join_date : nat -> string) (i : nat) : ring_member :=
  {| m_user_id := "ring_member_" +:+ ring_id +:+ "_" +:+ pretty i;
     m_role := member_role i;
     m_device_id := shared_device_id;
     m_ip_address := shared_ip;
     m_join_date := join_date i |}.

(** The device and the address a ring shares, as
    [generate_fraud_ring_scenario] forms them. *)
Definition ring_device (md5_hexdigest : string -> string) (base_user_id : string)
  : string :=
  "device_fraud_" +:+
  String.substring 0 12
    (md5_hexdigest ("ring_" +:+ String.substring 0 8 (md5_hexdigest base_user_id))).

Definition ring_ip (draws : ring_draws) : string :=
  "192.168." +:+ pretty (ip_third draws) +:+ "." +:+ pretty (ip_fourth draws).

(** The sum of the counts of a role distribution. *)
Definition role_total (role_distribution : gmap string nat) : nat :=
  sum_list (snd <$> map_to_list role_distribution).

End ScenarioEngine.

(** ** Vocabulary for the further properties *)

Module Vocabulary.

Import Counterfactual.

(** The order in which [make_decision] hands out its labels as the score
    grows: the FRAUD branch comes after the two threshold tests, so it takes
    scores below both thresholds. *)
Definition label_rank (d : DecisionEngine.decision) : nat :=
  match d with
  | DecisionEngine.APPROVED => 0
  | DecisionEngine.FRAUD => 1
  | DecisionEngine.REVIEW => 2
  | DecisionEngine.BLOCK => 3
  end.

(** [e[k]] on a returned dict. *)
Fixpoint entry_get (e : entry) (k : string) : option pyval :=
  match e with
  | [] => None
  | (k', v) :: e' => if String.eqb k' k then Some v else entry_get e' k
  end.

(** The categories the approval view of the bank looks at, each with the
    sentence it adds when the risk is below 5. *)
Definition positive_factor_table : list (string * string) :=
  [("amount", "Amount is within normal spending range");
   ("location", "Location matches device history");
   ("behavior", "Behavior matches typical patterns");
   ("merchant", "Merchant is in typical categories")].

Definition fallback_factors : list string :=
  ["Transaction matches user profile"; "No suspicious patterns detected"].

(** The share of its category risk that a bank entry promises to remove,
    and the confidence it states, by category. *)
Definition decay_factor (category : string) : Q :=
  if String.eqb category "amount" then 0.7
  else if String.eqb category "location" then 0.8
  else if String.eqb category "behavior" then 0.6
  else if String.eqb category "merchant" then 0.6
  else if String.eqb category "velocity" then 0.5
  else 0.

Definition stated_confidence (category : string) : Z :=
  if String.eqb category "amount" then 95
  else if String.eqb category "location" then 92
  else if String.eqb category "behavior" then 85
  else if String.eqb category "merchant" then 88
  else if String.eqb category "velocity" then 79
  else 0.

(** The impact line of a bank entry [e] for the score [risk_score]: "by
    so many points, from the score to the new score". *)
Definition impact_shape (risk_breakdown : gmap string Q) (risk_score : Q)
    (e : entry) : Prop :=
  exists category intro by_points to_score,
    Explain.entry_type e = Some category /\
    entry_get e "impact"
    = Some (PFmt [Lit intro; Fmt ".1f" by_points; Lit " points (from ";
                  Fmt ".1f" risk_score; Lit " to "; Fmt ".1f" to_score; Lit ")"]) /\
    by_points = rb_get risk_breakdown category * decay_factor category /\
    to_score = Qmax 0 (risk_score - by_points) /\
    0 < by_points /\ 0 <= to_score /\
    (0 <= risk_score -> to_score <= risk_score) /\
    entry_get e "confidence" = Some (PInt (stated_confidence category)).

(** The points each reason of [evaluate] stands for. *)
Definition reason_points (reason : string) : Z :=
  if String.eqb reason "High transaction amount" then 30
  else if String.eqb reason "High transaction frequency" then 25
  else if String.eqb reason "Multiple OTP failures" then 20
  else if String.eqb reason "New customer" then 15
  else 0.

Definition total_points (reasons : list string) : Z :=
  fold_right Z.add 0%Z (map reason_points reasons).

End Vocabulary.

(** * Properties *)

(** ** Comparisons and rounding *)

Section NumFacts.

Lemma geb_true x y : Num.geb x y = true <-> y <= x.
Proof. unfold Num.geb. apply Qle_bool_iff. Qed.

Lemma geb_false x y : Num.geb x y = false <-> x < y.
Proof.
  unfold Num.geb. split; intros H.
  - apply Qnot_le_lt. intros Hle. apply Qle_bool_iff in Hle. congruence.
  - destruct (Qle_bool y x) eqn:E; [|reflexivity].
    apply Qle_bool_iff in E. lra.
Qed.

Lemma gtb_true x y : Num.gtb x y = true <-> y < x.
Proof.
  unfold Num.gtb. rewrite negb_true_iff. apply (geb_false y x).
Qed.

Lemma gtb_false x y : Num.gtb x y = false <-> x <= y.
Proof.
  unfold Num.gtb. rewrite negb_false_iff. apply Qle_bool_iff.
Qed.

Lemma ltb_true x y : Num.ltb x y = true <-> x < y.
Proof.
  unfold Num.ltb. rewrite negb_true_iff. apply (geb_false x y).
Qed.

Lemma ltb_false x y : Num.ltb x y = false <-> y <= x.
Proof.
  unfold Num.ltb. rewrite negb_false_iff. apply Qle_bool_iff.
Qed.






End NumFacts.

(** ** The policy store and the decision *)

Section PolicyFacts.

Import PolicyEngine.

(** Case analysis on the three comparisons of [decide_action]. *)
Ltac decide_cases p r :=
  unfold decide_action;
  destruct (Num.geb r (block_threshold p)) eqn:?Hblock;
  destruct (Num.geb r (review_threshold p)) eqn:?Hreview;
  destruct (Num.geb r (low_threshold p)) eqn:?Hlow;
  repeat match goal with
         | H : Num.geb _ _ = true |- _ => apply geb_true in H
         | H : Num.geb _ _ = false |- _ => apply geb_false in H
         end.

Lemma update_policy_run low review block p :
  update_policy low review block p = (Return tt, mkPolicy low review block).
Proof. reflexivity. Qed.

(** The three writes happen one after the other: after the first, the
    store holds the new [low] beside the old [review] and [block]. *)
Lemma set_low_run low p :
  set_low low p
  = (Return tt, mkPolicy low (review_threshold p) (block_threshold p)).
Proof. reflexivity. Qed.

Lemma decide_action_critical p r :
  block_threshold p <= r -> decide_action p r = CRITICAL_FRAUD.
Proof. intros H. decide_cases p r; try reflexivity; lra. Qed.

Lemma decide_action_block p r :
  r < block_threshold p -> review_threshold p <= r ->
  decide_action p r = BLOCK.
Proof. intros H1 H2. decide_cases p r; try reflexivity; lra. Qed.

Lemma decide_action_review p r :
  r < block_threshold p -> r < review_threshold p -> low_threshold p <= r ->
  decide_action p r = REVIEW.
Proof. intros H1 H2 H3. decide_cases p r; try reflexivity; lra. Qed.

Lemma decide_action_approved p r :
  r < block_threshold p -> r < review_threshold p -> r < low_threshold p ->
  decide_action p r = APPROVED.
Proof. intros H1 H2 H3. decide_cases p r; try reflexivity; lra. Qed.

(** Monotonicity needs no assumption on the order of the thresholds. *)
Lemma decide_action_mono p r1 r2 :
  r1 <= r2 ->
  (severity (decide_action p r1) <= severity (decide_action p r2))%nat.
Proof.
  intros Hle.
  unfold decide_action.
  destruct (Num.geb r1 (block_threshold p)) eqn:B1;
  destruct (Num.geb r1 (review_threshold p)) eqn:R1;
  destruct (Num.geb r1 (low_threshold p)) eqn:L1;
  destruct (Num.geb r2 (block_threshold p)) eqn:B2;
  destruct (Num.geb r2 (review_threshold p)) eqn:R2;
  destruct (Num.geb r2 (low_threshold p)) eqn:L2;
  simpl; try lia;
  repeat match goal with
         | H : Num.geb _ _ = true |- _ => apply geb_true in H
         | H : Num.geb _ _ = false |- _ => apply geb_false in H
         end; lra.
Qed.

(** C2, as the claim states it, fails: the triple (40, 30, 90) has
    [review < low], yet [update_policy] does not raise [InvalidPolicy]
    and the store does not keep the thresholds it had. *)
Lemma update_policy_40_30_90_accepted :
  valid_triple 40 30 90 = false /\
  ~ (fst (update_policy 40 30 90 initial_policy) = Raise InvalidPolicy /\
     snd (update_policy 40 30 90 initial_policy) = initial_policy).
Proof.
  split; [reflexivity|].
  intros [H _]. discriminate H.
Qed.

(** C2, amended: neither [update_policy] validates.  The one of
    [policy_engine] returns normally for every triple and leaves the store
    holding exactly the three values given (so it differs from the
    validating update whenever the triple is invalid); the one of
    [decision_engine] overwrites each threshold it is given, keeps the
    other, and returns the two current values. *)
Theorem update_policy_overwrites :
  (forall low review block p,
      update_policy low review block p = (Return tt, mkPolicy low review block) /\
      (valid_triple low review block = false ->
       update_policy low review block p <> spec_update low review block p) /\
      (valid_triple low review block = true ->
       update_policy low review block p = spec_update low review block p)) /\
  (forall b r st,
      let b' := default (DecisionEngine.BLOCK_THRESHOLD st) b in
      let r' := default (DecisionEngine.REVIEW_THRESHOLD st) r in
      DecisionEngine.update_policy b r st
      = (Return (<["block_threshold" := b']> (<["review_threshold" := r']> ∅)),
         DecisionEngine.mkThresholds b' r')).
Proof.
  split.
  - intros low review block p. split; [reflexivity|]. split; intros Hv.
    + unfold spec_update. rewrite Hv, update_policy_run. discriminate.
    + unfold spec_update. rewrite Hv. reflexivity.
  - intros b r st. destruct b, r; reflexivity.
Qed.

(** The amended C2 at the triple of the claim. *)
Lemma update_policy_overwrites_witness :
  update_policy 40 30 90 initial_policy <> spec_update 40 30 90 initial_policy.
Proof.
  apply (proj1 update_policy_overwrites 40 30 90 initial_policy).
  reflexivity.
Defined.

(** C3, as the claim states it, fails when [review] and [block]
    coincide: a score equal to [review] is then CRITICAL_FRAUD, not
    BLOCK. *)
Lemma decide_action_tie_review_not_block :
  let p := mkPolicy 30 60 60 in
  decide_action p (review_threshold p) <> BLOCK.
Proof. simpl. vm_compute. discriminate. Qed.

(** C3, amended: [decide_action] returns CRITICAL_FRAUD from [block]
    up, else BLOCK from [review] up, else REVIEW from [low] up, else
    APPROVED.  A score equal to a threshold never falls in the bucket
    below it: at [block] the action is CRITICAL_FRAUD; at [review] it is
    BLOCK when [review < block] and CRITICAL_FRAUD otherwise, never REVIEW
    or APPROVED; at [low] it is never APPROVED, and it is REVIEW when
    [low < review] and [low < block]. *)
Theorem decide_action_buckets p r :
  (block_threshold p <= r -> decide_action p r = CRITICAL_FRAUD) /\
  (r < block_threshold p -> review_threshold p <= r ->
   decide_action p r = BLOCK) /\
  (r < block_threshold p -> r < review_threshold p -> low_threshold p <= r ->
   decide_action p r = REVIEW) /\
  (r < block_threshold p -> r < review_threshold p -> r < low_threshold p ->
   decide_action p r = APPROVED) /\
  decide_action p (block_threshold p) = CRITICAL_FRAUD /\
  decide_action p (review_threshold p)
  = (if Num.ltb (review_threshold p) (block_threshold p)
     then BLOCK else CRITICAL_FRAUD) /\
  (2 <= severity (decide_action p (review_threshold p)))%nat /\
  (1 <= severity (decide_action p (low_threshold p)))%nat /\
  (low_threshold p < review_threshold p -> low_threshold p < block_threshold p ->
   decide_action p (low_threshold p) = REVIEW).
Proof.
  repeat split.
  - apply decide_action_critical.
  - apply decide_action_block.
  - apply decide_action_review.
  - apply decide_action_approved.
  - apply decide_action_critical. lra.
  - destruct (Num.ltb (review_threshold p) (block_threshold p)) eqn:E.
    + apply ltb_true in E. apply decide_action_block; lra.
    + apply ltb_false in E. now apply decide_action_critical.
  - decide_cases p (review_threshold p); simpl; try lia; lra.
  - decide_cases p (low_threshold p); simpl; try lia; lra.
  - intros H1 H2. apply decide_action_review; lra.
Qed.

(** The amended C3 at the thresholds the module starts with: 60 is
    BLOCK and 30 is REVIEW. *)
Lemma decide_action_buckets_witness :
  decide_action initial_policy 60 = BLOCK /\
  decide_action initial_policy 30 = REVIEW.
Proof.
  pose proof (decide_action_buckets initial_policy 60) as (_ & Hb & _).
  pose proof (decide_action_buckets initial_policy 30) as (_ & _ & Hr & _).
  split.
  - apply Hb; unfold Qlt, Qle; simpl; lia.
  - apply Hr; unfold Qlt, Qle; simpl; lia.
Defined.

(** C4: with ordered thresholds, a higher score never gets a less
    severe action. *)
Theorem decide_action_monotonic p r1 r2 :
  low_threshold p <= review_threshold p ->
  review_threshold p <= block_threshold p ->
  r1 <= r2 ->
  (severity (decide_action p r1) <= severity (decide_action p r2))%nat.
Proof. intros _ _. apply decide_action_mono. Qed.

Lemma decide_action_monotonic_witness :
  (severity (decide_action initial_policy 45)
   <= severity (decide_action initial_policy 70))%nat.
Proof.
  apply decide_action_monotonic; unfold Qle; simpl; lia.
Defined.

End PolicyFacts.

(** ** The decision engine: final risk and [make_decision] *)

Section DecisionFacts.

Import DecisionEngine.




(** C10: when one of the two thresholds is at most 90, the branch
    [score >= 90] of [make_decision] is never reached: the label is
    APPROVED, REVIEW or BLOCK. *)
Theorem make_decision_never_fraud st score :
  REVIEW_THRESHOLD st <= 90 \/ BLOCK_THRESHOLD st <= 90 ->
  fst (make_decision st score) <> FRAUD /\
  (fst (make_decision st score) = APPROVED \/
   fst (make_decision st score) = REVIEW \/
   fst (make_decision st score) = BLOCK).
Proof.
  intros Hth. unfold make_decision.
  destruct (Num.geb score (BLOCK_THRESHOLD st)) eqn:B; simpl.
  { split; [discriminate | auto]. }
  destruct (Num.geb score (REVIEW_THRESHOLD st)) eqn:R; simpl.
  { split; [discriminate | auto]. }
  destruct (Num.geb score 90) eqn:F; simpl.
  - apply geb_false in B. apply geb_false in R. apply geb_true in F.
    destruct Hth; lra.
  - split; [discriminate | auto].
Qed.

Lemma make_decision_never_fraud_witness :
  fst (make_decision initial_thresholds 95) <> FRAUD /\
  (fst (make_decision initial_thresholds 95) = APPROVED \/
   fst (make_decision initial_thresholds 95) = REVIEW \/
   fst (make_decision initial_thresholds 95) = BLOCK).
Proof.
  apply make_decision_never_fraud.
  left. unfold Qle; simpl; lia.
Defined.

(** The thresholds matter: with both above 90 the FRAUD branch is live. *)
Example make_decision_fraud_reachable :
  fst (make_decision (mkThresholds 99 95) 92) = FRAUD.
Proof. reflexivity. Qed.

End DecisionFacts.

(** ** The counterfactual engine *)

Section CounterfactualFacts.

Import Counterfactual Explain.

(** Case analysis on the three tests of the customer view. *)
Ltac customer_cases rb :=
  unfold _generate_decline_counterfactuals_customer, spec_customer, qualifying;
  simpl;
  destruct (Num.gtb (rb_get rb "amount") 5);
  destruct (Num.gtb (rb_get rb "location") 10);
  destruct (Num.gtb (rb_get rb "behavior") 8);
  simpl.

Lemma customer_refines_spec tx rb h r :
  _generate_decline_counterfactuals_customer tx rb h r = spec_customer rb.
Proof. customer_cases rb; reflexivity. Qed.

Lemma customer_number_free tx rb h r :
  Forall (fun e => entry_number_free e = true)
         (_generate_decline_counterfactuals_customer tx rb h r).
Proof. customer_cases rb; repeat constructor. Qed.

Lemma customer_length tx rb h r :
  (1 <= length (_generate_decline_counterfactuals_customer tx rb h r) <= 2)%nat.
Proof. customer_cases rb; lia. Qed.

(** The customer view never looks like an approval. *)
Lemma customer_decline_not_approval tx rb h r :
  _generate_decline_counterfactuals_customer tx rb h r
  <> _generate_approval_explanations_customer tx rb r.
Proof. customer_cases rb; discriminate. Qed.

(** C6: the customer view of a decline is the list the specification
    describes: one fixed suggestion per category above its mention
    threshold (amount > 5, location > 10, behavior > 8), in that order, at
    most two, and the contact-support entry alone when no category
    qualifies.  Every field of every entry is fixed text without a digit.
    The order is the fixed one: a location risk of 25 beside an amount risk
    of 6 still yields amount first.  For the breakdown with amount 10 and
    zeros elsewhere the result is the single amount entry. *)
Theorem decline_customer_suggestions tx rb h r :
  let out := _generate_decline_counterfactuals_customer tx rb h r in
  out = spec_customer rb /\
  (1 <= length out <= 2)%nat /\
  Forall (fun e => entry_number_free e = true) out /\
  (out = [contact_support] <-> qualifying rb = []) /\
  map entry_type (_generate_decline_counterfactuals_customer tx all_high h r)
  = [Some "amount"; Some "location"] /\
  _generate_decline_counterfactuals_customer tx amount_only h r
  = [[("type", PStr "amount");
      ("title", PStr "Reduce Transaction Amount");
      ("suggestion",
       PStr "Try a smaller amount or split into multiple transactions")]].
Proof.
  intros out. subst out.
  split; [apply customer_refines_spec|].
  split; [apply customer_length|].
  split; [apply customer_number_free|].
  split; [|split; reflexivity].
  customer_cases rb; split; intros H; first [reflexivity | discriminate H].
Qed.

(** *** The branch taken by [generate_counterfactuals] *)

Lemma generate_counterfactuals_run tx r rb h self :
  generate_counterfactuals tx r rb h self
  = (if Num.ltb r (decision_threshold self)
     then approval_output tx r rb
     else decline_output tx r rb h, self).
Proof.
  unfold generate_counterfactuals, bind, get, lift, ret,
    approval_output, decline_output, obind.
  destruct (Num.ltb r (decision_threshold self)); [reflexivity|].
  destruct (_generate_decline_counterfactuals_bank tx rb h r); reflexivity.
Qed.

(** The two paths never produce the same result. *)
Lemma approval_decline_distinct tx r rb h :
  approval_output tx r rb <> decline_output tx r rb h.
Proof.
  unfold approval_output, decline_output, obind.
  destruct (_generate_decline_counterfactuals_bank tx rb h r) as [bank|e];
    [|discriminate].
  intros H. injection H as Hc _.
  symmetry in Hc. revert Hc. apply customer_decline_not_approval.
Qed.

(** C5, as the claim states it, fails: a risk score of 45 is above the
    low threshold of the policy store (30), and the engine still takes the
    approval path. *)
Lemma generate_counterfactuals_45_approval :
  PolicyEngine.low_threshold PolicyEngine.initial_policy <= 45 /\
  PolicyEngine.decide_action PolicyEngine.initial_policy 45 = PolicyEngine.REVIEW /\
  fst (generate_counterfactuals sample_txn 45 amount_only [] counterfactual_engine)
  = approval_output sample_txn 45 amount_only /\
  fst (generate_counterfactuals sample_txn 45 amount_only [] counterfactual_engine)
  <> decline_output sample_txn 45 amount_only [].
Proof.
  split; [unfold Qle; simpl; lia|].
  split; [reflexivity|].
  split; [reflexivity|].
  rewrite generate_counterfactuals_run. simpl fst.
  change (Num.ltb 45 (decision_threshold counterfactual_engine)) with true.
  apply approval_decline_distinct.
Qed.

(** C5, amended: the engine branches on its own threshold, the 60.0
    that [__init__] stores in [decision_threshold], and never reads the
    policy store.  A risk score below it takes the approval path, any other
    the one decline path; the two are distinguishable and the engine is left
    as it was.  Under the thresholds the policy store starts with, the
    decline path is thus taken exactly for BLOCK and CRITICAL_FRAUD, while
    REVIEW goes with APPROVED down the approval path. *)
Theorem generate_counterfactuals_branch tx r rb h self :
  decision_threshold __init__ == 60 /\
  (r < decision_threshold self ->
   generate_counterfactuals tx r rb h self = (approval_output tx r rb, self)) /\
  (decision_threshold self <= r ->
   generate_counterfactuals tx r rb h self = (decline_output tx r rb h, self)) /\
  approval_output tx r rb <> decline_output tx r rb h /\
  (fst (generate_counterfactuals tx r rb h counterfactual_engine)
   = decline_output tx r rb h
   <-> (2 <= PolicyEngine.severity
               (PolicyEngine.decide_action PolicyEngine.initial_policy r))%nat).
Proof.
  split; [reflexivity|].
  split; [|split; [|split]].
  - intros H. apply ltb_true in H.
    rewrite generate_counterfactuals_run, H. reflexivity.
  - intros H. apply ltb_false in H.
    rewrite generate_counterfactuals_run, H. reflexivity.
  - apply approval_decline_distinct.
  - rewrite generate_counterfactuals_run. simpl fst.
    change (decision_threshold counterfactual_engine) with 60.0.
    unfold PolicyEngine.decide_action. simpl.
    destruct (Num.ltb r 60.0) eqn:E.
    + apply ltb_true in E.
      assert (Hb : Num.geb r 85 = false) by (apply geb_false; lra).
      assert (Hr : Num.geb r 60 = false) by (apply geb_false; lra).
      rewrite Hb, Hr. split.
      * intros H. exfalso. revert H. apply approval_decline_distinct.
      * destruct (Num.geb r 30); simpl; lia.
    + apply ltb_false in E.
      assert (Hr : Num.geb r 60 = true) by (apply geb_true; lra).
      rewrite Hr. split; [|reflexivity].
      destruct (Num.geb r 85); simpl; lia.
Qed.

Lemma generate_counterfactuals_branch_witness :
  generate_counterfactuals sample_txn 45 amount_only [] counterfactual_engine
  = (approval_output sample_txn 45 amount_only, counterfactual_engine) /\
  generate_counterfactuals sample_txn 70 amount_only [] counterfactual_engine
  = (decline_output sample_txn 70 amount_only [], counterfactual_engine).
Proof.
  split.
  - apply (generate_counterfactuals_branch sample_txn 45 amount_only []).
    unfold Qlt; simpl; lia.
  - apply (generate_counterfactuals_branch sample_txn 70 amount_only []).
    unfold Qle; simpl; lia.
Defined.

(** *** Determinism *)


(** *** Churn *)

(** C8, as the claim states it, fails: [calculate_churn_impact] knows
    the decision 'DECLINED' only.  For 'BLOCK' at a risk of 100 and a user
    value of 1000 the churn probability is 0.02 and the revenue at risk 0,
    not 0.5 and 500. *)
Lemma churn_block_not_declined :
  let '(churn_probability, revenue_at_risk) :=
    churn_locals (PolicyEngine.action_label PolicyEngine.BLOCK) 100 1000 in
  churn_probability == 0.02 /\ revenue_at_risk == 0 /\
  ~ churn_probability == Qmin 0.5 ((100 / 100) * 0.5) /\
  ~ revenue_at_risk == 500.
Proof. simpl. repeat split; intros H; discriminate H. Qed.

(** C8, amended: for the decision 'DECLINED' the churn probability is
    [min(0.5, (risk_score / 100) * 0.5)] and the revenue at risk is that
    probability times the user value: 0.5 and 500 at a risk of 100 and a
    user value of 1000.  For every other decision, the labels of
    [decide_action] and [make_decision] among them, the churn probability is
    0.02 and the revenue at risk 0.  The returned dict formats these two
    numbers. *)
Theorem churn_impact_declined_only decision risk_score user_value :
  let p := Qmin 0.5 ((risk_score / 100) * 0.5) in
  churn_locals "DECLINED" risk_score user_value = (p, p * user_value) /\
  p <= 0.5 /\
  fst (churn_locals "DECLINED" 100 default_user_value) == 0.5 /\
  snd (churn_locals "DECLINED" 100 default_user_value) == 500 /\
  (decision <> "DECLINED" ->
   churn_locals decision risk_score user_value = (0.02, 0)) /\
  (forall a, churn_locals (PolicyEngine.action_label a) risk_score user_value
             = (0.02, 0)) /\
  (forall d, churn_locals (DecisionEngine.decision_label d) risk_score user_value
             = (0.02, 0)) /\
  (forall k v, In (k, v) (calculate_churn_impact decision risk_score user_value) ->
     (k = "churn_probability" ->
      v = PFmt [Fmt ".1f"
                  (fst (churn_locals decision risk_score user_value) * 100);
                Lit "%"]) /\
     (k = "revenue_at_risk" ->
      v = PFmt [Fmt ",.0f" (snd (churn_locals decision risk_score user_value))])).
Proof.
  intros p. split; [reflexivity|]. split; [apply Q.le_min_l|].
  split; [reflexivity|]. split; [reflexivity|].
  split; [|split; [|split]].
  - intros Hd. unfold churn_locals.
    destruct (String.eqb_spec decision "DECLINED"); [contradiction | reflexivity].
  - intros []; reflexivity.
  - intros []; reflexivity.
  - intros k v. unfold calculate_churn_impact.
    destruct (churn_locals decision risk_score user_value) as [cp rev].
    simpl. intros [H|[H|[H|[H|[]]]]]; inversion H; subst;
      split; intros E; first [reflexivity | discriminate E].
Qed.

Lemma churn_impact_declined_only_witness :
  churn_locals "BLOCK" 100 1000 = (0.02, 0).
Proof.
  apply (churn_impact_declined_only "BLOCK" 100 1000).
  discriminate.
Defined.

(** *** The two audiences *)

(** Membership in a list given by its elements. *)
Ltac in_list := simpl; repeat (first [left; reflexivity | right]).

(** An entry reports [risk_breakdown.get(c, 0)] in its explanation. *)
Ltac reports_in_explanation rb c :=
  exists "explanation"; eexists; exists ""; exists (rb_get rb c);
  split; [in_list | split; [in_list | reflexivity]].

Lemma amount_counterfactual_cases tx rb h r :
  match amount_counterfactual tx rb h r with
  | Return e =>
      entry_type e = Some "amount" /\ mentions (rb_get rb "amount") e
  | Raise x =>
      (x = KeyError "amount" /\ amount tx = None) \/
      (x = ZeroDivisionError /\ exists a, amount tx = Some a /\ a == 0)
  end.
Proof.
  unfold amount_counterfactual, index_amount, py_div, obind.
  destruct (amount tx) as [a|]; [|left; auto].
  destruct (Qeq_bool a 0) eqn:E.
  - right. split; [reflexivity|]. exists a. split; [reflexivity|].
    now apply Qeq_bool_iff.
  - split; [reflexivity|]. reports_in_explanation rb "amount".
Qed.

Lemma location_counterfactual_reports tx rb r :
  entry_type (location_counterfactual tx rb r) = Some "location" /\
  mentions (rb_get rb "location") (location_counterfactual tx rb r).
Proof. split; [reflexivity|]. reports_in_explanation rb "location". Qed.

Lemma behavior_counterfactual_reports tx rb r :
  entry_type (behavior_counterfactual tx rb r) = Some "behavior" /\
  mentions (rb_get rb "behavior") (behavior_counterfactual tx rb r).
Proof. split; [reflexivity|]. reports_in_explanation rb "behavior". Qed.

Lemma merchant_counterfactual_reports tx rb h r :
  entry_type (merchant_counterfactual tx rb h r) = Some "merchant" /\
  mentions (rb_get rb "merchant") (merchant_counterfactual tx rb h r).
Proof. split; [reflexivity|]. reports_in_explanation rb "merchant". Qed.

Lemma velocity_counterfactual_reports rb r :
  entry_type (velocity_counterfactual rb r) = Some "velocity" /\
  mentions (rb_get rb "velocity") (velocity_counterfactual rb r).
Proof. split; [reflexivity|]. reports_in_explanation rb "velocity". Qed.

(** The bank view, case by case: when it returns, its entries are those
    of [bank_categories], in order, and each formats the risk of its own
    category; it raises only from the amount block. *)
Lemma bank_cases tx rb h r :
  match _generate_decline_counterfactuals_bank tx rb h r with
  | Return es =>
      map entry_type es = map Some (bank_categories rb) /\
      Forall (fun e => exists c, entry_type e = Some c /\
                                 mentions (rb_get rb c) e) es
  | Raise x =>
      5 < rb_get rb "amount" /\
      ((x = KeyError "amount" /\ amount tx = None) \/
       (x = ZeroDivisionError /\ exists a, amount tx = Some a /\ a == 0))
  end.
Proof.
  unfold _generate_decline_counterfactuals_bank, bank_categories, bank_thresholds.
  pose proof (amount_counterfactual_cases tx rb h r) as Ha.
  pose proof (location_counterfactual_reports tx rb r) as [Tl Ml].
  pose proof (behavior_counterfactual_reports tx rb r) as [Tb Mb].
  pose proof (merchant_counterfactual_reports tx rb h r) as [Tm Mm].
  pose proof (velocity_counterfactual_reports rb r) as [Tv Mv].
  set (el := location_counterfactual tx rb r) in *. clearbody el.
  set (eb := behavior_counterfactual tx rb r) in *. clearbody eb.
  set (em := merchant_counterfactual tx rb h r) in *. clearbody em.
  set (ev := velocity_counterfactual rb r) in *. clearbody ev.
  cbn [List.filter fst snd].
  destruct (Num.gtb (rb_get rb "amount") 5) eqn:A.
  - destruct (amount_counterfactual tx rb h r) as [ea|x]; cbn [obind].
    + destruct Ha as [Ta Ma].
      destruct (Num.gtb (rb_get rb "location") 5);
        destruct (Num.gtb (rb_get rb "behavior") 5);
        destruct (Num.gtb (rb_get rb "merchant") 5);
        destruct (Num.gtb (rb_get rb "velocity") 3);
        cbn [app take map fst];
        rewrite ?Ta, ?Tl, ?Tb, ?Tm, ?Tv;
        (split; [reflexivity|]);
        repeat (apply List.Forall_cons; [eauto|]); apply List.Forall_nil.
    + split; [now apply gtb_true | exact Ha].
  - cbn [obind].
    destruct (Num.gtb (rb_get rb "location") 5);
      destruct (Num.gtb (rb_get rb "behavior") 5);
      destruct (Num.gtb (rb_get rb "merchant") 5);
      destruct (Num.gtb (rb_get rb "velocity") 3);
      cbn [app take map fst];
      rewrite ?Tl, ?Tb, ?Tm, ?Tv;
      (split; [reflexivity|]);
      repeat (apply List.Forall_cons; [eauto|]); apply List.Forall_nil.
Qed.

(** C7, as the claim states it, fails: on the decline path, with every
    category risk below its threshold, the bank view is the empty list and
    reports no category risk at all. *)
Lemma bank_view_empty_reports_nothing :
  decision_threshold counterfactual_engine <= 70 /\
  fst (generate_counterfactuals sample_txn 70 all_low [] counterfactual_engine)
  = Return ([contact_support], []) /\
  forall c, ~ bank_reports all_low [] c.
Proof.
  split; [unfold Qle; simpl; lia|].
  split; [reflexivity|].
  intros c [e [[] _]].
Qed.

(** C7, amended: every field of every entry of the customer view of a
    decline is fixed text without a digit, hence carries no risk value.
    The bank view, when it returns, has one entry for each category above
    its bank threshold (amount, location, behavior, merchant > 5, velocity
    > 3), the first four in that order, and each entry formats the risk
    value of its own category; it is empty when no category qualifies, and
    with five qualifying categories the velocity risk is left out.  The bank
    view raises instead, only when the amount risk exceeds 5 and the
    transaction has no amount or a zero amount. *)
Theorem decline_views_audience tx rb h r :
  Forall (fun e => entry_number_free e = true)
         (_generate_decline_counterfactuals_customer tx rb h r) /\
  match _generate_decline_counterfactuals_bank tx rb h r with
  | Return bank =>
      map entry_type bank = map Some (bank_categories rb) /\
      Forall (fun e => exists c, entry_type e = Some c /\
                                 mentions (rb_get rb c) e) bank /\
      (forall c, In c (bank_categories rb) -> bank_reports rb bank c) /\
      (bank = [] <-> bank_categories rb = [])
  | Raise x =>
      5 < rb_get rb "amount" /\
      ((x = KeyError "amount" /\ amount tx = None) \/
       (x = ZeroDivisionError /\ exists a, amount tx = Some a /\ a == 0))
  end /\
  map entry_type
      (match _generate_decline_counterfactuals_bank sample_txn all_high [] 70 with
       | Return bank => bank
       | Raise _ => []
       end)
  = [Some "amount"; Some "location"; Some "behavior"; Some "merchant"].
Proof.
  split; [apply customer_number_free|].
  split; [|reflexivity].
  pose proof (bank_cases tx rb h r) as H.
  destruct (_generate_decline_counterfactuals_bank tx rb h r) as [bank|x];
    [|exact H].
  destruct H as [Ht Hf].
  split; [exact Ht|]. split; [exact Hf|]. split.
  - intros c Hc.
    assert (Hin : In (Some c) (map entry_type bank)).
    { rewrite Ht. now apply in_map. }
    apply in_map_iff in Hin as (e & He & Hin).
    exists e. split; [exact Hin|].
    rewrite Forall_forall in Hf.
    destruct (Hf e) as (c' & Hc' & Hm).
    { now apply list_elem_of_In. }
    congruence.
  - split; intros E.
    + rewrite E in Ht. simpl in Ht.
      destruct (bank_categories rb); [reflexivity | discriminate Ht].
    + rewrite E in Ht. simpl in Ht.
      destruct bank; [reflexivity | discriminate Ht].
Qed.

(** *** The engine on sample inputs *)

(** With an empty history the optimal amount is half the current one;
    otherwise it is 1.5 times the mean of the positive amounts among the
    last ten. *)
Example find_optimal_amount_no_history :
  _find_optimal_amount 50000 [] == 25000.
Proof. reflexivity. Qed.

Example find_optimal_amount_history :
  _find_optimal_amount 50000
    [mkTxn (Some 100) None None None None;
     mkTxn (Some 0) None None None None;
     mkTxn None None None None None;
     mkTxn (Some 200) None None None None] == 225.
Proof. reflexivity. Qed.

Example find_optimal_amount_no_positive :
  _find_optimal_amount 50000 [mkTxn (Some 0) None None None None] == 30000.
Proof. reflexivity. Qed.

(** The amount block divides by the transaction amount. *)
Example bank_view_zero_amount :
  _generate_decline_counterfactuals_bank
    (mkTxn (Some 0) None None None None) amount_only [] 70
  = Raise ZeroDivisionError.
Proof. reflexivity. Qed.

Example bank_view_missing_amount :
  _generate_decline_counterfactuals_bank
    (mkTxn None None None None None) amount_only [] 70
  = Raise (KeyError "amount").
Proof. reflexivity. Qed.

(** The impact line of the amount entry: 10 points of amount risk at a
    score of 70 are reported as a drop by 7, from 70 to 63. *)
Example bank_view_amount_impact :
  exists e impact,
    _generate_decline_counterfactuals_bank sample_txn amount_only [] 70 = Return [e] /\
    In ("impact", PFmt impact) e /\
    exists by_points from_score to_score,
      impact = [Lit "Reduces total risk by "; Fmt ".1f" by_points;
                Lit " points (from "; Fmt ".1f" from_score; Lit " to ";
                Fmt ".1f" to_score; Lit ")"] /\
      by_points == 7 /\ from_score == 70 /\ to_score == 63.
Proof.
  eexists. eexists. split; [reflexivity|]. split.
  - simpl. do 5 right. left. reflexivity.
  - do 3 eexists. split; [reflexivity|]. repeat split.
Qed.

End CounterfactualFacts.

(** ** More on rounding *)

Section RoundingFacts.

Lemma round_half_even_range q :
  Num.round_half_even q = Qfloor q \/ Num.round_half_even q = (Qfloor q + 1)%Z.
Proof.
  unfold Num.round_half_even.
  destruct (Qcompare (q - inject_Z (Qfloor q)) (1 # 2)); auto.
  destruct (Z.even (Qfloor q)); auto.
Qed.

Lemma round_half_even_comp q q' :
  q == q' -> Num.round_half_even q = Num.round_half_even q'.
Proof.
  intros E. unfold Num.round_half_even.
  rewrite (Qfloor_comp _ _ E).
  assert (E' : q - inject_Z (Qfloor q') == q' - inject_Z (Qfloor q')) by (rewrite E; reflexivity).
  rewrite (Qcompare_comp _ _ E' (1 # 2) (1 # 2) (Qeq_refl _)).
  reflexivity.
Qed.

Lemma round_half_even_Z (a : Z) : Num.round_half_even (inject_Z a) = a.
Proof.
  unfold Num.round_half_even. rewrite Qfloor_Z.
  destruct (Qcompare_spec (inject_Z a - inject_Z a) (1 # 2)) as [H|H|H];
    [lra | reflexivity | lra].
Qed.

Lemma round_half_even_mono q1 q2 :
  q1 <= q2 -> (Num.round_half_even q1 <= Num.round_half_even q2)%Z.
Proof.
  intros Hle.
  pose proof (Qfloor_resp_le _ _ Hle) as Hf.
  destruct (Z.eq_dec (Qfloor q1) (Qfloor q2)) as [E|NE].
  - unfold Num.round_half_even. rewrite E.
    destruct (Qcompare_spec (q1 - inject_Z (Qfloor q2)) (1 # 2)) as [H1|H1|H1];
      destruct (Qcompare_spec (q2 - inject_Z (Qfloor q2)) (1 # 2)) as [H2|H2|H2];
      try destruct (Z.even (Qfloor q2)); try lia; lra.
  - destruct (round_half_even_range q1) as [R1|R1];
      destruct (round_half_even_range q2) as [R2|R2]; lia.
Qed.

(** The scale [10^ndigits] of [round(x, ndigits)]. *)
Lemma scale_positive (ndigits : nat) : 0 < inject_Z (10 ^ Z.of_nat ndigits).
Proof.
  change 0 with (inject_Z 0). rewrite <- Zlt_Qlt.
  apply Z.pow_pos_nonneg; lia.
Qed.

(** [round] is monotone. *)
Lemma py_round_mono x y ndigits :
  x <= y -> Num.py_round x ndigits <= Num.py_round y ndigits.
Proof.
  intros Hle. unfold Num.py_round.
  pose proof (scale_positive ndigits) as Hs.
  set (scale := inject_Z (10 ^ Z.of_nat ndigits)) in *.
  apply Qmult_le_compat_r; [|apply Qlt_le_weak, Qinv_lt_0_compat, Hs].
  rewrite <- Zle_Qle. apply round_half_even_mono.
  apply Qmult_le_compat_r; [exact Hle | lra].
Qed.

(** A number with at most [ndigits] decimals is left as it is. *)
Lemma py_round_exact (a : Z) ndigits :
  Num.py_round (inject_Z a / inject_Z (10 ^ Z.of_nat ndigits)) ndigits
  == inject_Z a / inject_Z (10 ^ Z.of_nat ndigits).
Proof.
  unfold Num.py_round.
  pose proof (scale_positive ndigits) as Hs.
  set (scale := inject_Z (10 ^ Z.of_nat ndigits)) in *.
  rewrite (round_half_even_comp (inject_Z a / scale * scale) (inject_Z a)).
  - rewrite round_half_even_Z. reflexivity.
  - field. lra.
Qed.

(** [round] keeps its argument between two numbers of at most [ndigits]
    decimals. *)
Lemma py_round_between (a b : Z) x ndigits :
  let scale := inject_Z (10 ^ Z.of_nat ndigits) in
  inject_Z a / scale <= x <= inject_Z b / scale ->
  inject_Z a / scale <= Num.py_round x ndigits <= inject_Z b / scale.
Proof.
  intros scale [Ha Hb]. subst scale. split.
  - apply Qle_trans with (Num.py_round (inject_Z a / inject_Z (10 ^ Z.of_nat ndigits)) ndigits).
    + apply Qle_lteq. right. symmetry. apply py_round_exact.
    + now apply py_round_mono.
  - apply Qle_trans with (Num.py_round (inject_Z b / inject_Z (10 ^ Z.of_nat ndigits)) ndigits).
    + now apply py_round_mono.
    + apply Qle_lteq. right. apply py_round_exact.
Qed.


End RoundingFacts.

(** * Further properties *)

(** ** Thresholds, labels and the final risk *)

Section ThresholdFacts.

Import PolicyEngine.

(** X1: which actions a stored triple can produce at all.  CRITICAL_FRAUD and
    APPROVED are always reachable; BLOCK needs [review < block], REVIEW needs
    [low] below both other thresholds. *)
Theorem decide_action_reachable p :
  (exists r, decide_action p r = CRITICAL_FRAUD) /\
  (exists r, decide_action p r = APPROVED) /\
  ((exists r, decide_action p r = BLOCK)
   <-> review_threshold p < block_threshold p) /\
  ((exists r, decide_action p r = REVIEW)
   <-> low_threshold p < review_threshold p /\ low_threshold p < block_threshold p).
Proof.
  split; [|split; [|split]].
  - exists (block_threshold p). apply decide_action_critical. lra.
  - exists (Qmin (low_threshold p) (Qmin (review_threshold p) (block_threshold p)) - 1).
    pose proof (Q.le_min_l (low_threshold p)
                  (Qmin (review_threshold p) (block_threshold p))).
    pose proof (Q.le_min_r (low_threshold p)
                  (Qmin (review_threshold p) (block_threshold p))).
    pose proof (Q.le_min_l (review_threshold p) (block_threshold p)).
    pose proof (Q.le_min_r (review_threshold p) (block_threshold p)).
    apply decide_action_approved; lra.
  - split.
    + intros [r H]. unfold decide_action in H.
      destruct (Num.geb r (block_threshold p)) eqn:B; [discriminate|].
      destruct (Num.geb r (review_threshold p)) eqn:R.
      * apply geb_false in B. apply geb_true in R. lra.
      * destruct (Num.geb r (low_threshold p)); discriminate.
    + intros H. exists (review_threshold p). apply decide_action_block; lra.
  - split.
    + intros [r H]. unfold decide_action in H.
      destruct (Num.geb r (block_threshold p)) eqn:B; [discriminate|].
      destruct (Num.geb r (review_threshold p)) eqn:R; [discriminate|].
      destruct (Num.geb r (low_threshold p)) eqn:L; [|discriminate].
      apply geb_false in B. apply geb_false in R. apply geb_true in L. lra.
    + intros [H1 H2]. exists (low_threshold p). apply decide_action_review; lra.
Qed.

End ThresholdFacts.

Section LabelFacts.

Import DecisionEngine Vocabulary.

Ltac make_decision_cases st score :=
  unfold make_decision;
  destruct (Num.geb score (BLOCK_THRESHOLD st)) eqn:?B;
  destruct (Num.geb score (REVIEW_THRESHOLD st)) eqn:?R;
  destruct (Num.geb score 90) eqn:?F;
  simpl;
  repeat match goal with
         | H : Num.geb _ _ = true |- _ => apply geb_true in H
         | H : Num.geb _ _ = false |- _ => apply geb_false in H
         end.

(** X2: the FRAUD label is given exactly to the scores from 90 up that are
    below both thresholds; some score gets it exactly when both thresholds
    are above 90. *)
Theorem make_decision_fraud_iff st score :
  (fst (make_decision st score) = FRAUD
   <-> 90 <= score /\ score < BLOCK_THRESHOLD st /\ score < REVIEW_THRESHOLD st) /\
  ((exists s, fst (make_decision st s) = FRAUD)
   <-> 90 < BLOCK_THRESHOLD st /\ 90 < REVIEW_THRESHOLD st).
Proof.
  assert (Hiff : forall s, fst (make_decision st s) = FRAUD
            <-> 90 <= s /\ s < BLOCK_THRESHOLD st /\ s < REVIEW_THRESHOLD st).
  { intros s. make_decision_cases st s; split;
      first [discriminate | intros; lra | intros; repeat split; auto; lra | reflexivity]. }
  split; [apply Hiff|]. split.
  - intros [s Hs]. apply Hiff in Hs. lra.
  - intros [Hb Hr]. exists 90. apply Hiff. lra.
Qed.

(** X3: [make_decision] is monotone for the order APPROVED, FRAUD, REVIEW,
    BLOCK, whatever the thresholds: a higher score never moves the label
    back in that order.  In particular a score labelled FRAUD, when raised,
    stays FRAUD or becomes REVIEW or BLOCK. *)
Theorem make_decision_monotone st s1 s2 :
  s1 <= s2 ->
  (label_rank (fst (make_decision st s1)) <= label_rank (fst (make_decision st s2)))%nat.
Proof.
  intros Hle. unfold make_decision.
  destruct (Num.geb s1 (BLOCK_THRESHOLD st)) eqn:B1;
  destruct (Num.geb s1 (REVIEW_THRESHOLD st)) eqn:R1;
  destruct (Num.geb s1 90) eqn:F1;
  destruct (Num.geb s2 (BLOCK_THRESHOLD st)) eqn:B2;
  destruct (Num.geb s2 (REVIEW_THRESHOLD st)) eqn:R2;
  destruct (Num.geb s2 90) eqn:F2;
  simpl; try lia;
  repeat match goal with
         | H : Num.geb _ _ = true |- _ => apply geb_true in H
         | H : Num.geb _ _ = false |- _ => apply geb_false in H
         end; lra.
Qed.

Lemma make_decision_monotone_witness :
  (label_rank (fst (make_decision (mkThresholds 99 95) 92))
   <= label_rank (fst (make_decision (mkThresholds 99 95) 96)))%nat.
Proof.
  apply make_decision_monotone. unfold Qle; simpl; lia.
Defined.

(** X4: the final risk is monotone in each of its three inputs, and so is the
    action [decide_action] takes on it, for every stored policy. *)
Theorem calculate_final_risk_monotone t1 b1 f1 t2 b2 f2 :
  t1 <= t2 -> b1 <= b2 -> f1 <= f2 ->
  calculate_final_risk t1 b1 f1 <= calculate_final_risk t2 b2 f2 /\
  forall p,
    (PolicyEngine.severity (PolicyEngine.decide_action p (calculate_final_risk t1 b1 f1))
     <= PolicyEngine.severity
          (PolicyEngine.decide_action p (calculate_final_risk t2 b2 f2)))%nat.
Proof.
  intros Ht Hb Hf.
  assert (H : calculate_final_risk t1 b1 f1 <= calculate_final_risk t2 b2 f2).
  { unfold calculate_final_risk. apply py_round_mono. lra. }
  split; [exact H|].
  intros p. now apply decide_action_mono.
Qed.

Lemma calculate_final_risk_monotone_witness :
  calculate_final_risk 10 5 20 <= calculate_final_risk 40 5 20.
Proof.
  apply calculate_final_risk_monotone; unfold Qle; simpl; lia.
Defined.

Lemma decision_update_policy_run b r st :
  update_policy b r st
  = (Return (<["block_threshold" := default (BLOCK_THRESHOLD st) b]>
               (<["review_threshold" := default (REVIEW_THRESHOLD st) r]> ∅)),
     mkThresholds (default (BLOCK_THRESHOLD st) b) (default (REVIEW_THRESHOLD st) r)).
Proof. destruct b, r; reflexivity. Qed.

(** [update_policy] of [decision_engine]: the dict it returns holds the
    two thresholds the module has after the call, under the two keys and no
    other; an argument left out keeps the threshold; a second call with the
    same arguments changes nothing. *)
Lemma update_policy_reads_back b r st :
  exists d,
    update_policy b r st = (Return d, snd (update_policy b r st)) /\
    d !! "block_threshold" = Some (BLOCK_THRESHOLD (snd (update_policy b r st))) /\
    d !! "review_threshold" = Some (REVIEW_THRESHOLD (snd (update_policy b r st))) /\
    (forall k, k <> "block_threshold" -> k <> "review_threshold" -> d !! k = None) /\
    (b = None ->
     BLOCK_THRESHOLD (snd (update_policy b r st)) = BLOCK_THRESHOLD st) /\
    (r = None ->
     REVIEW_THRESHOLD (snd (update_policy b r st)) = REVIEW_THRESHOLD st) /\
    (forall v, b = Some v -> BLOCK_THRESHOLD (snd (update_policy b r st)) = v) /\
    (forall v, r = Some v -> REVIEW_THRESHOLD (snd (update_policy b r st)) = v) /\
    update_policy b r (snd (update_policy b r st)) = update_policy b r st.
Proof.
  rewrite !decision_update_policy_run. cbn [snd].
  rewrite ?decision_update_policy_run. cbn [BLOCK_THRESHOLD REVIEW_THRESHOLD].
  eexists. split; [reflexivity|].
  split; [apply lookup_insert_eq|].
  split; [rewrite lookup_insert_ne by discriminate; apply lookup_insert_eq|].
  split; [intros k H1 H2; rewrite !lookup_insert_ne by congruence;
          apply lookup_empty|].
  destruct b, r; simpl; repeat split; intros; congruence.
Qed.

End LabelFacts.

(** ** More on the counterfactual engine *)

Section MoreCounterfactualFacts.

Import Counterfactual Explain Vocabulary.

(** *** Sums *)

Lemma sum_from (l : list Q) (a : Q) : fold_left Qplus l a == a + Num.sum l.
Proof.
  unfold Num.sum. revert a.
  induction l as [|x l IH]; intros a; simpl.
  - ring.
  - rewrite (IH (a + x)), (IH (0 + x)). ring.
Qed.

Lemma sum_cons (x : Q) (l : list Q) : Num.sum (x :: l) == x + Num.sum l.
Proof. unfold Num.sum at 1. simpl. rewrite sum_from. ring. Qed.

Lemma sum_positive (l : list Q) :
  l <> [] -> Forall (fun x => 0 < x) l -> 0 < Num.sum l.
Proof.
  intros Hne Hall. induction Hall as [|x l Hx Hall IH]; [congruence|].
  rewrite sum_cons. destruct l as [|y l].
  - change (Num.sum []) with 0. lra.
  - assert (0 < Num.sum (y :: l)) by (apply IH; discriminate). lra.
Qed.

Lemma sum_Permutation (l l' : list Q) : l ≡ₚ l' -> Num.sum l == Num.sum l'.
Proof.
  induction 1 as [|x l l' _ IH|x y l|l l' l'' _ IH1 _ IH2].
  - reflexivity.
  - rewrite !sum_cons, IH. reflexivity.
  - rewrite !sum_cons. ring.
  - now rewrite IH1.
Qed.

Lemma rb_sum_empty : rb_sum ∅ == 0.
Proof. unfold rb_sum. rewrite map_to_list_empty. reflexivity. Qed.

Lemma rb_sum_insert (rb : gmap string Q) k v :
  rb !! k = None -> rb_sum (<[k := v]> rb) == v + rb_sum rb.
Proof.
  intros Hk. unfold rb_sum.
  rewrite (sum_Permutation _ (snd <$> ((k, v) :: map_to_list rb))).
  - rewrite fmap_cons. apply sum_cons.
  - apply fmap_Permutation. now apply map_to_list_insert.
Qed.

(** *** The optimal amount *)

Lemma last10_app {A} (old recent : list A) :
  (10 <= length recent)%nat -> last10 (old ++ recent) = last10 recent.
Proof.
  intros H. unfold last10. rewrite length_app.
  replace (length old + length recent - 10)%nat
    with (length old + (length recent - 10))%nat by lia.
  apply drop_app_add.
Qed.

(** The amounts the mean is taken of. *)
Lemma find_optimal_amount_nonempty c h :
  h <> [] ->
  _find_optimal_amount c h
  = let amounts :=
      map get_amount
          (List.filter (fun t => Num.gtb (get_amount t) 0) (last10 h)) in
    match amounts with
    | [] => c * 0.6
    | _ => Num.sum amounts / inject_Z (Z.of_nat (length amounts)) * 1.5
    end.
Proof. destruct h; [congruence|]. reflexivity. Qed.

(** X5: only the last ten transactions of the history count: whatever comes
    before them does not change the optimal amount. *)
Theorem find_optimal_amount_last_ten c old recent :
  (10 <= length recent)%nat ->
  _find_optimal_amount c (old ++ recent) = _find_optimal_amount c recent.
Proof.
  intros H.
  rewrite !find_optimal_amount_nonempty.
  - now rewrite last10_app.
  - destruct recent; [simpl in H; lia | discriminate].
  - destruct old, recent; try discriminate. simpl in H. lia.
Qed.

Lemma find_optimal_amount_last_ten_witness :
  let recent := repeat (mkTxn (Some 100) None None None None) 10 in
  _find_optimal_amount 5000 ([mkTxn (Some 900000) None None None None] ++ recent)
  = _find_optimal_amount 5000 recent.
Proof.
  apply find_optimal_amount_last_ten. simpl. lia.
Defined.

(** X6: for a positive current amount the optimal amount is positive, whatever
    the history holds: entries without an amount, or with a zero or negative
    one, are left out of the mean. *)
Theorem find_optimal_amount_positive c h :
  0 < c -> 0 < _find_optimal_amount c h.
Proof.
  intros Hc. destruct h as [|t h].
  - simpl. lra.
  - rewrite find_optimal_amount_nonempty by discriminate.
    set (kept := List.filter (fun t => Num.gtb (get_amount t) 0) (last10 (t :: h))).
    assert (Hall : Forall (fun x => 0 < x) (map get_amount kept)).
    { apply List.Forall_map. apply List.Forall_forall. intros x Hx.
      apply List.filter_In in Hx as [_ Hx]. now apply gtb_true in Hx. }
    cbv zeta.
    destruct (map get_amount kept) as [|a amounts] eqn:E; [lra|].
    assert (Hs : 0 < Num.sum (a :: amounts)) by (apply sum_positive; [discriminate | exact Hall]).
    assert (Hn : 0 < inject_Z (Z.of_nat (length (a :: amounts)))).
    { change 0 with (inject_Z 0). rewrite <- Zlt_Qlt. simpl. lia. }
    apply Qmult_lt_0_compat; [|lra].
    apply Qlt_shift_div_l; [exact Hn | lra].
Qed.

Lemma find_optimal_amount_positive_witness :
  0 < _find_optimal_amount 5000
        [mkTxn (Some (-20)) None None None None; mkTxn None None None None None].
Proof.
  apply find_optimal_amount_positive. unfold Qlt; simpl; lia.
Defined.

(** *** When the entry point raises *)

Lemma amount_counterfactual_raises tx rb h r x :
  ((x = KeyError "amount" /\ amount tx = None) \/
   (x = ZeroDivisionError /\ exists a, amount tx = Some a /\ a == 0)) ->
  amount_counterfactual tx rb h r = Raise x.
Proof.
  unfold amount_counterfactual, index_amount, py_div, obind.
  intros [[-> Hn]|[-> (a & Hs & Hz)]].
  - now rewrite Hn.
  - rewrite Hs. apply Qeq_bool_iff in Hz. now rewrite Hz.
Qed.

Lemma bank_raises_iff tx rb h r x :
  _generate_decline_counterfactuals_bank tx rb h r = Raise x
  <-> 5 < rb_get rb "amount" /\
      ((x = KeyError "amount" /\ amount tx = None) \/
       (x = ZeroDivisionError /\ exists a, amount tx = Some a /\ a == 0)).
Proof.
  split.
  - intros H. pose proof (bank_cases tx rb h r) as Hb. now rewrite H in Hb.
  - intros [Ha Hx]. apply gtb_true in Ha.
    unfold _generate_decline_counterfactuals_bank.
    rewrite Ha, (amount_counterfactual_raises tx rb h r x Hx). reflexivity.
Qed.

(** X7: [generate_counterfactuals] raises exactly when the score is on the
    decline side, the amount risk exceeds 5 and the transaction has no
    amount or an amount of zero; the exception is [KeyError] in the first
    case and [ZeroDivisionError] in the second.  On the approval side it
    always returns. *)
Theorem generate_counterfactuals_raises_iff tx r rb h self x :
  fst (generate_counterfactuals tx r rb h self) = Raise x
  <-> decision_threshold self <= r /\ 5 < rb_get rb "amount" /\
      ((x = KeyError "amount" /\ amount tx = None) \/
       (x = ZeroDivisionError /\ exists a, amount tx = Some a /\ a == 0)).
Proof.
  rewrite generate_counterfactuals_run. cbn [fst].
  rewrite <- (bank_raises_iff tx rb h r x).
  destruct (Num.ltb r (decision_threshold self)) eqn:E.
  - apply ltb_true in E. unfold approval_output.
    split; [discriminate|]. intros [H _]. lra.
  - apply ltb_false in E. unfold decline_output, obind.
    destruct (_generate_decline_counterfactuals_bank tx rb h r) as [bank|y].
    + split; [discriminate|]. intros [_ H]. discriminate H.
    + split.
      * intros H. injection H as ->. auto.
      * intros [_ H]. injection H as ->. reflexivity.
Qed.

(** *** The approval view of the bank *)

(** X8: the approval view of the bank is one dict.  Its positive factors are
    the sentences of the categories amount, location, behavior and merchant
    whose risk is below 5, in that order, and the two fallback sentences when
    there is none: between one and four sentences, never an empty list.  The
    velocity risk plays no part. *)
Theorem approval_bank_positive_factors tx rb r :
  exists e factors,
    _generate_approval_explanations_bank tx rb r = [e] /\
    entry_get e "positive_factors" = Some (PList factors) /\
    (let under :=
       map snd (List.filter (fun t => Num.ltb (rb_get rb (fst t)) 5)
                            positive_factor_table) in
     factors = match under with [] => fallback_factors | _ => under end) /\
    (1 <= length factors <= 4)%nat /\
    (factors = fallback_factors
     <-> 5 <= rb_get rb "amount" /\ 5 <= rb_get rb "location" /\
         5 <= rb_get rb "behavior" /\ 5 <= rb_get rb "merchant").
Proof.
  unfold _generate_approval_explanations_bank, positive_factor_table.
  cbn [List.filter fst snd].
  destruct (Num.ltb (rb_get rb "amount") 5) eqn:A;
    destruct (Num.ltb (rb_get rb "location") 5) eqn:L;
    destruct (Num.ltb (rb_get rb "behavior") 5) eqn:B;
    destruct (Num.ltb (rb_get rb "merchant") 5) eqn:M;
    (eexists; eexists; split; [reflexivity|]; split; [reflexivity|];
     split; [reflexivity|]; split; [simpl; lia|]);
    repeat match goal with
           | H : Num.ltb _ _ = true |- _ => apply ltb_true in H
           | H : Num.ltb _ _ = false |- _ => apply ltb_false in H
           end;
    (split; [try discriminate; intros _; auto | try reflexivity; intros; lra]).
Qed.

(** X9: the confidence of the approval view is 100 minus the sum of every
    value of the risk breakdown, whatever its key: it is 100 for the empty
    breakdown, and adding a key with risk [v] lowers it by [v].  Nothing
    clamps it, so it is negative once the risks add up to more than 100. *)
Theorem approval_confidence_counts_every_key tx rb r k v :
  rb !! k = None ->
  exists e e' c c',
    _generate_approval_explanations_bank tx rb r = [e] /\
    _generate_approval_explanations_bank tx (<[k := v]> rb) r = [e'] /\
    entry_get e "confidence" = Some (PFmt [Fmt ".0f" c; Lit "%"]) /\
    entry_get e' "confidence" = Some (PFmt [Fmt ".0f" c'; Lit "%"]) /\
    c' == c - v /\
    (rb = ∅ -> c == 100) /\
    (c < 0 <-> 100 < rb_sum rb).
Proof.
  intros Hk. unfold _generate_approval_explanations_bank.
  do 4 eexists.
  split; [reflexivity|]. split; [reflexivity|].
  split; [reflexivity|]. split; [reflexivity|].
  split; [|split].
  - rewrite (rb_sum_insert rb k v Hk). ring.
  - intros ->. rewrite rb_sum_empty. ring.
  - split; intros H; lra.
Qed.

Lemma approval_confidence_counts_every_key_witness :
  exists e' c',
    _generate_approval_explanations_bank sample_txn (<["time" := 120]> amount_only) 30
    = [e'] /\
    entry_get e' "confidence" = Some (PFmt [Fmt ".0f" c'; Lit "%"]) /\
    c' == -30.
Proof.
  destruct (approval_confidence_counts_every_key sample_txn amount_only 30 "time" 120)
    as (e & e' & c & c' & He & He' & Hc & Hc' & Heq & _).
  { reflexivity. }
  exists e', c'. split; [exact He'|]. split; [exact Hc'|].
  injection He as <-. injection Hc as <-. rewrite Heq. reflexivity.
Defined.

(** *** Churn *)

Lemma churn_locals_declined r uv :
  churn_locals "DECLINED" r uv
  = (Qmin 0.5 (r / 100 * 0.5), Qmin 0.5 (r / 100 * 0.5) * uv).
Proof. reflexivity. Qed.

Lemma churn_probability_cases r :
  (r <= 100 -> Qmin 0.5 (r / 100 * 0.5) == r / 200) /\
  (100 <= r -> Qmin 0.5 (r / 100 * 0.5) == 0.5).
Proof.
  assert (E : r / 100 * 0.5 == r / 200) by (field; lra).
  split; intros H.
  - rewrite Q.min_r.
    + exact E.
    + rewrite E. apply Qle_shift_div_r; lra.
  - rewrite Q.min_l.
    + reflexivity.
    + rewrite E. apply Qle_shift_div_l; lra.
Qed.

(** X10: for the decision 'DECLINED' the churn probability is [risk_score / 200]
    up to a risk score of 100 and 0.5 from there on; it grows with the risk
    score, lies in [[0, 0.5]] for a risk score that is not negative, and is
    negative for a negative one, which nothing clamps.  The revenue at risk
    is never more than half the value of a user whose value is not
    negative. *)
Theorem churn_probability_shape r r' uv :
  let cp := fst (churn_locals "DECLINED" r uv) in
  let rev := snd (churn_locals "DECLINED" r uv) in
  (r <= 100 -> cp == r / 200) /\
  (100 <= r -> cp == 0.5) /\
  (0 <= r -> 0 <= cp <= 0.5) /\
  (r < 0 -> cp < 0) /\
  (r <= r' -> cp <= fst (churn_locals "DECLINED" r' uv)) /\
  (0 <= r -> 0 <= uv -> 0 <= rev <= uv / 2).
Proof.
  rewrite !churn_locals_declined. cbn [fst snd].
  pose proof (churn_probability_cases r) as [Hlow Hhigh].
  assert (Hdiv : forall a b, a <= b -> a / 200 <= b / 200).
  { intros a b Hab. unfold Qdiv. apply Qmult_le_compat_r; [exact Hab|].
    apply Qlt_le_weak, Qinv_lt_0_compat. lra. }
  assert (Hbound : 0 <= r -> 0 <= Qmin 0.5 (r / 100 * 0.5) <= 0.5).
  { intros H0. split; [|apply Q.le_min_l].
    destruct (Qlt_le_dec r 100) as [H|H].
    - rewrite Hlow by lra. apply Qle_shift_div_l; lra.
    - rewrite Hhigh by lra. lra. }
  split; [exact Hlow|]. split; [exact Hhigh|]. split; [exact Hbound|].
  split; [|split].
  - intros Hneg. rewrite Hlow by lra. apply Qlt_shift_div_r; lra.
  - intros Hle.
    pose proof (churn_probability_cases r') as [Hlow' Hhigh'].
    destruct (Qlt_le_dec r 100) as [H|H], (Qlt_le_dec r' 100) as [H'|H'].
    + rewrite Hlow, Hlow' by lra. now apply Hdiv.
    + rewrite Hlow, Hhigh' by lra.
      apply Qle_trans with (100 / 200);
        [apply Hdiv; lra | unfold Qle; simpl; lia].
    + lra.
    + rewrite Hhigh, Hhigh' by lra. lra.
  - intros H0 Huv. destruct (Hbound H0) as [Hc0 Hc1].
    split.
    + apply Qmult_le_0_compat; assumption.
    + apply Qle_trans with (0.5 * uv).
      * apply Qmult_le_compat_r; assumption.
      * apply Qle_lteq. right. field.
Qed.

Lemma churn_probability_shape_witness :
  fst (churn_locals "DECLINED" 250 1000) == 0.5 /\
  fst (churn_locals "DECLINED" (-50) 1000) < 0.
Proof.
  split.
  - apply (churn_probability_shape 250 250 1000). unfold Qle; simpl; lia.
  - apply (churn_probability_shape (-50) (-50) 1000). unfold Qlt; simpl; lia.
Defined.

(** X11: the recommendation is outreach exactly for a 'DECLINED' decision with
    a risk score above 40; in every other case the dict says that the
    decision is appropriate. *)
Theorem churn_recommendation decision r uv :
  exists s,
    entry_get (calculate_churn_impact decision r uv) "recommendation"
    = Some (PStr s) /\
    (s = "Consider manual review or outreach" \/ s = "Decision appropriate") /\
    (s = "Consider manual review or outreach"
     <-> decision = "DECLINED" /\ 40 < r).
Proof.
  unfold calculate_churn_impact, churn_locals.
  destruct (String.eqb_spec decision "DECLINED") as [->|Hne].
  - cbn [entry_get String.eqb Ascii.eqb Bool.eqb].
    eexists. split; [reflexivity|].
    pose proof (churn_probability_cases r) as [Hlow Hhigh].
    destruct (Num.gtb (Qmin 0.5 (r / 100 * 0.5)) 0.2) eqn:E.
    + split; [auto|]. split; [intros _|reflexivity]. split; [reflexivity|].
      apply gtb_true in E.
      destruct (Qlt_le_dec 40 r) as [H|H]; [exact H|].
      exfalso. rewrite Hlow in E by lra.
      assert (r / 200 <= 0.2) by (apply Qle_shift_div_r; lra). lra.
    + split; [auto|]. split; [discriminate|]. intros [_ H].
      exfalso. apply gtb_false in E.
      destruct (Qlt_le_dec r 100) as [H'|H'].
      * rewrite Hlow in E by lra.
        assert (0.2 < r / 200) by (apply Qlt_shift_div_l; lra). lra.
      * rewrite Hhigh in E by lra. lra.
  - eexists. split; [reflexivity|]. simpl.
    split; [auto|]. split; [discriminate|]. intros [H _]. contradiction.
Qed.

(** *** The two views of one decline *)

(** X12: whatever the customer is told to change, the bank view reports too:
    when the bank view returns, the category of every customer suggestion
    other than the contact-support entry is the category of one of its
    entries.  The converse fails: a location risk of 7 is reported to the bank
    while the customer is only told to contact support. *)
Theorem customer_suggestions_backed_by_bank tx rb h r bank :
  _generate_decline_counterfactuals_bank tx rb h r = Return bank ->
  (forall e c,
      In e (_generate_decline_counterfactuals_customer tx rb h r) ->
      entry_type e = Some c -> c <> "contact" ->
      exists e', In e' bank /\ entry_type e' = Some c) /\
  (rb_get rb "amount" <= 5 -> 5 < rb_get rb "location" <= 10 ->
   rb_get rb "behavior" <= 8 ->
   _generate_decline_counterfactuals_customer tx rb h r = [contact_support] /\
   exists e', In e' bank /\ entry_type e' = Some "location").
Proof.
  intros Hbank.
  pose proof (bank_cases tx rb h r) as Hb. rewrite Hbank in Hb.
  destruct Hb as [Htypes _].
  assert (Hfind : forall c, In c (bank_categories rb) ->
                            exists e', In e' bank /\ entry_type e' = Some c).
  { intros c Hc.
    assert (Hin : In (Some c) (map entry_type bank)).
    { rewrite Htypes. now apply in_map. }
    apply in_map_iff in Hin as (e' & He' & Hin). eauto. }
  split.
  - intros e c He Ht Hc. apply Hfind.
    rewrite customer_refines_spec in He.
    unfold spec_customer, qualifying, customer_templates in He.
    unfold bank_categories, bank_thresholds.
    cbn [List.filter fst snd] in *.
    destruct (Num.gtb (rb_get rb "amount") 5) eqn:A;
      destruct (Num.gtb (rb_get rb "location") 10) eqn:L10;
      destruct (Num.gtb (rb_get rb "behavior") 8) eqn:B8;
      destruct (Num.gtb (rb_get rb "location") 5) eqn:L5;
      destruct (Num.gtb (rb_get rb "behavior") 5) eqn:B5;
      repeat match goal with
             | H : Num.gtb _ _ = true |- _ => apply gtb_true in H
             | H : Num.gtb _ _ = false |- _ => apply gtb_false in H
             end;
      try lra;
      destruct (Num.gtb (rb_get rb "merchant") 5);
      destruct (Num.gtb (rb_get rb "velocity") 3);
      simpl in He;
      repeat match goal with
             | H : _ \/ _ |- _ => destruct H as [H|H]
             | H : False |- _ => destruct H
             end;
      subst e; simpl in Ht; injection Ht as <-;
      first [congruence | simpl; auto 10].
  - intros Ha [Hl5 Hl10] Hb8. split.
    + rewrite customer_refines_spec.
      unfold spec_customer, qualifying, customer_templates.
      cbn [List.filter].
      cbv beta iota.
      rewrite (proj2 (gtb_false _ _) Ha), (proj2 (gtb_false _ _) Hl10),
        (proj2 (gtb_false _ _) Hb8).
      reflexivity.
    + apply Hfind. unfold bank_categories, bank_thresholds.
      cbn [List.filter fst snd].
      rewrite (proj2 (gtb_false _ _) Ha), (proj2 (gtb_true _ _) Hl5).
      destruct (Num.gtb (rb_get rb "behavior") 5);
        destruct (Num.gtb (rb_get rb "merchant") 5);
        destruct (Num.gtb (rb_get rb "velocity") 3); simpl; auto.
Qed.

Lemma customer_suggestions_backed_by_bank_witness :
  exists bank,
    _generate_decline_counterfactuals_bank sample_txn all_high [] 70 = Return bank /\
    forall e c,
      In e (_generate_decline_counterfactuals_customer sample_txn all_high [] 70) ->
      entry_type e = Some c -> c <> "contact" ->
      exists e', In e' bank /\ entry_type e' = Some c.
Proof.
  eexists. split; [reflexivity|].
  apply (customer_suggestions_backed_by_bank sample_txn all_high [] 70).
  reflexivity.
Defined.

(** *** The impact a bank entry promises *)

Lemma impact_facts risk factor r :
  0 < risk -> 0 < factor ->
  0 < risk * factor /\ 0 <= Qmax 0 (r - risk * factor) /\
  (0 <= r -> Qmax 0 (r - risk * factor) <= r).
Proof.
  intros Hr Hf.
  assert (H : 0 < risk * factor) by now apply Qmult_lt_0_compat.
  split; [exact H|]. split; [apply Q.le_max_l|].
  intros H0. apply Q.max_lub; lra.
Qed.

Ltac impact_of category :=
  exists category; eexists; eexists; eexists;
  split; [reflexivity|]; split; [reflexivity|];
  split; [reflexivity|]; split; [reflexivity|].

Lemma amount_counterfactual_impact tx rb h r e :
  5 < rb_get rb "amount" ->
  amount_counterfactual tx rb h r = Return e -> impact_shape rb r e.
Proof.
  intros Hrisk. unfold amount_counterfactual, index_amount, py_div, obind.
  destruct (amount tx) as [a|]; [|discriminate].
  destruct (Qeq_bool a 0); [discriminate|].
  intros H. injection H as <-.
  impact_of "amount".
  destruct (impact_facts (rb_get rb "amount") 0.7 r) as (H1 & H2 & H3); [lra..|].
  repeat split; assumption.
Qed.

Lemma location_counterfactual_impact tx rb r :
  5 < rb_get rb "location" -> impact_shape rb r (location_counterfactual tx rb r).
Proof.
  intros Hrisk. impact_of "location".
  destruct (impact_facts (rb_get rb "location") 0.8 r) as (H1 & H2 & H3); [lra..|].
  repeat split; assumption.
Qed.

Lemma behavior_counterfactual_impact tx rb r :
  5 < rb_get rb "behavior" -> impact_shape rb r (behavior_counterfactual tx rb r).
Proof.
  intros Hrisk. impact_of "behavior".
  destruct (impact_facts (rb_get rb "behavior") 0.6 r) as (H1 & H2 & H3); [lra..|].
  repeat split; assumption.
Qed.

Lemma merchant_counterfactual_impact tx rb h r :
  5 < rb_get rb "merchant" -> impact_shape rb r (merchant_counterfactual tx rb h r).
Proof.
  intros Hrisk. impact_of "merchant".
  destruct (impact_facts (rb_get rb "merchant") 0.6 r) as (H1 & H2 & H3); [lra..|].
  repeat split; assumption.
Qed.

Lemma velocity_counterfactual_impact rb r :
  3 < rb_get rb "velocity" -> impact_shape rb r (velocity_counterfactual rb r).
Proof.
  intros Hrisk. impact_of "velocity".
  destruct (impact_facts (rb_get rb "velocity") 0.5 r) as (H1 & H2 & H3); [lra..|].
  repeat split; assumption.
Qed.

(** X24: every entry of the bank view of a decline promises to remove a fixed
    share of the risk of its own category (0.7 for amount, 0.8 for location,
    0.6 for behavior and merchant, 0.5 for velocity), a positive number of
    points; the new score it shows is the old one less those points, cut off
    at 0, so it is never negative and, for a score that is not negative, never
    above the old one.  The confidence it states is the constant of its
    category (95, 92, 85, 88, 79). *)
Theorem bank_entries_impact tx rb h r :
  match _generate_decline_counterfactuals_bank tx rb h r with
  | Return bank => Forall (impact_shape rb r) bank
  | Raise _ => True
  end.
Proof.
  unfold _generate_decline_counterfactuals_bank.
  pose proof (amount_counterfactual_impact tx rb h r) as Ha.
  pose proof (location_counterfactual_impact tx rb r) as Hl.
  pose proof (behavior_counterfactual_impact tx rb r) as Hb.
  pose proof (merchant_counterfactual_impact tx rb h r) as Hm.
  pose proof (velocity_counterfactual_impact rb r) as Hv.
  set (el := location_counterfactual tx rb r) in *. clearbody el.
  set (eb := behavior_counterfactual tx rb r) in *. clearbody eb.
  set (em := merchant_counterfactual tx rb h r) in *. clearbody em.
  set (ev := velocity_counterfactual rb r) in *. clearbody ev.
  destruct (Num.gtb (rb_get rb "amount") 5) eqn:A;
    [destruct (amount_counterfactual tx rb h r) as [ea|x]; cbn [obind];
     [specialize (Ha ea (proj1 (gtb_true _ _) A) eq_refl) | exact I]
    |cbn [obind]];
    destruct (Num.gtb (rb_get rb "location") 5) eqn:L;
    destruct (Num.gtb (rb_get rb "behavior") 5) eqn:B;
    destruct (Num.gtb (rb_get rb "merchant") 5) eqn:M;
    destruct (Num.gtb (rb_get rb "velocity") 3) eqn:V;
    repeat match goal with
           | H : Num.gtb _ _ = true |- _ => apply gtb_true in H
           | H : Num.gtb _ _ = false |- _ => clear H
           end;
    cbn [app take];
    repeat (apply List.Forall_cons; [auto|]); apply List.Forall_nil.
Qed.

End MoreCounterfactualFacts.

(** ** The rule-based evaluation and the audit lists *)

Section EvaluateFacts.

Import Main Vocabulary.

(** X13: [evaluate] scores a request by four independent rules.  The score is
    the sum of the points of the reasons it lists (30, 25, 20, 15), so it is
    between 0 and 90 and it is 0 exactly when no reason is given; no reason
    is listed twice.  The tenure rule reads a missing key as 0 months: a
    request without [tenure_months] is a new customer and scores at least
    15. *)
Theorem evaluate_score_and_reasons txn :
  let ev := evaluate txn in
  risk_score ev = total_points (reasons ev) /\
  (0 <= risk_score ev <= 90)%Z /\
  (risk_score ev = 0%Z <-> reasons ev = []) /\
  NoDup (reasons ev) /\
  (In "High transaction amount" (reasons ev) <-> 50000 < txn_get txn "amount") /\
  (In "High transaction frequency" (reasons ev) <-> 5 < txn_get txn "velocity_24h") /\
  (In "Multiple OTP failures" (reasons ev) <-> 2 < txn_get txn "otp_failures") /\
  (In "New customer" (reasons ev) <-> txn_get txn "tenure_months" < 3) /\
  (txn !! "tenure_months" = None ->
   In "New customer" (reasons ev) /\ (15 <= risk_score ev)%Z).
Proof.
  assert (Hmissing : txn !! "tenure_months" = None ->
                     Num.ltb (txn_get txn "tenure_months") 3 = true).
  { intros H. unfold txn_get. rewrite H. reflexivity. }
  unfold evaluate.
  destruct (Num.gtb (txn_get txn "amount") 50000) eqn:A;
    destruct (Num.gtb (txn_get txn "velocity_24h") 5) eqn:V;
    destruct (Num.gtb (txn_get txn "otp_failures") 2) eqn:O;
    destruct (Num.ltb (txn_get txn "tenure_months") 3) eqn:T;
    cbn [risk_score reasons app Z.add];
    repeat match goal with
           | H : Num.gtb _ _ = true |- _ => apply gtb_true in H
           | H : Num.gtb _ _ = false |- _ => apply gtb_false in H
           | H : Num.ltb _ _ = true |- _ => apply ltb_true in H
           | H : Num.ltb _ _ = false |- _ => apply ltb_false in H
           end;
    (split; [reflexivity|]); (split; [simpl; lia|]);
    (split; [split; intros H; first [reflexivity | discriminate H]|]);
    (split; [compute_done|]);
    repeat (split;
            [split; [intros H; simpl in H; first [assumption | intuition discriminate]
                    |intros H; simpl; first [tauto | lra]]|]);
    intros Hn; specialize (Hmissing Hn);
    first [discriminate Hmissing | split; [simpl; tauto | simpl; lia]].
Qed.

Lemma evaluate_score_and_reasons_witness :
  In "New customer" (reasons (evaluate ∅)) /\ (15 <= risk_score (evaluate ∅))%Z.
Proof.
  apply (evaluate_score_and_reasons ∅). reflexivity.
Defined.

End EvaluateFacts.

Section AuditFacts.

Lemma run_all_cons {S A} (c : Py S A) (rest : list (Py S A)) (s : S) :
  run_all (c :: rest) s
  = match c s with
    | (Return a, s') =>
      match run_all rest s' with
      | (Return others, s'') => (Return (a :: others), s'')
      | (Raise e, s'') => (Raise e, s'')
      end
    | (Raise e, s') => (Raise e, s')
    end.
Proof.
  cbn [run_all]. unfold bind at 1. destruct (c s) as [[a|e] s']; [|reflexivity].
  unfold bind, ret. destruct (run_all rest s') as [[others|e] s'']; reflexivity.
Qed.

(** X14: the [/audit] endpoint of [main.py]: posting the dicts [ds] one after
    the other to a list holding [logs] never fails, leaves the list
    [logs ++ ds] (what was there stays, in place, and the new dicts follow in
    the order posted), and the [i]-th response counts [length logs + i + 1]
    logs.  [view_audit_log] returns that list and changes nothing. *)
Theorem save_audit_appends {A} (ds logs : list A) :
  run_all (map Main.save_audit ds) logs
  = (Return (map (fun i => Main.mkAuditSaved "Audit saved successfully"
                             (length logs + i))
                 (seq 1 (length ds))),
     logs ++ ds) /\
  Main.view_audit_log (logs ++ ds) = (Return (logs ++ ds), logs ++ ds).
Proof.
  split; [|reflexivity].
  revert logs. induction ds as [|d ds IH]; intros logs.
  - simpl. unfold ret. now rewrite app_nil_r.
  - cbn [map]. rewrite run_all_cons.
    change (Main.save_audit d logs)
      with (Return (Main.mkAuditSaved "Audit saved successfully"
                      (length (logs ++ [d]))), logs ++ [d]).
    cbv beta iota. rewrite IH. rewrite <- app_assoc. cbn [app length seq map].
    rewrite length_app. cbn [length].
    f_equal. f_equal. f_equal.
    rewrite <- (seq_shift (length ds) 1), map_map.
    apply map_ext. intros i. f_equal. lia.
Qed.

(** X15: [log_decision] of [audit.py]: a run of calls never fails and leaves
    the log extended by one record per call, in the order of the calls, each
    holding the transaction and the decision it was given; the records
    already in the log are kept.  [get_audit_log] returns the log. *)
Theorem log_decision_appends
    (calls : list (Audit.Transaction * Audit.Decision)) (log : list Audit.record) :
  run_all (map (fun c => Audit.log_decision (fst c) (snd c)) calls) log
  = (Return (map (fun _ => tt) calls),
     log ++ map (fun c => Audit.mkRecord (fst c) (snd c)) calls) /\
  Audit.get_audit_log (log ++ map (fun c => Audit.mkRecord (fst c) (snd c)) calls)
  = (Return (log ++ map (fun c => Audit.mkRecord (fst c) (snd c)) calls),
     log ++ map (fun c => Audit.mkRecord (fst c) (snd c)) calls).
Proof.
  split; [|reflexivity].
  revert log. induction calls as [|c calls IH]; intros log.
  - simpl. unfold ret. now rewrite app_nil_r.
  - cbn [map]. rewrite run_all_cons.
    change (Audit.log_decision (fst c) (snd c) log)
      with (Return tt, log ++ [Audit.mkRecord (fst c) (snd c)]).
    cbv beta iota. rewrite IH. rewrite <- app_assoc. reflexivity.
Qed.

End AuditFacts.

(** ** The explanation dict *)

Section ExplanationFacts.

Import ExplanationEngine.

Lemma index_Return {V} (d : gmap string V) k v :
  d !! k = Some v -> index d k = Return v.
Proof. intros H. unfold index. now rewrite H. Qed.

Lemma index_Raise {V} (d : gmap string V) k :
  d !! k = None -> index d k = Raise (KeyError k).
Proof. intros H. unfold index. now rewrite H. Qed.

(** X16: [generate_explanation] returns exactly when [decision_data] has the
    five keys it reads, and then hands back the five values it found; else
    it raises [KeyError] for the first key, in the order decision, txn_risk,
    behavioural_risk, fraud_ring_risk, reasons, that is missing.  Any other
    key of [decision_data] is ignored. *)
Theorem generate_explanation_keys {V} (d : gmap string V) :
  match generate_explanation d with
  | Return ex =>
      d !! "decision" = Some (final_decision V ex) /\
      d !! "txn_risk" = Some (transaction_risk V (breakdown V ex)) /\
      d !! "behavioural_risk" = Some (behavioural_risk V (breakdown V ex)) /\
      d !! "fraud_ring_risk" = Some (fraud_ring_risk V (breakdown V ex)) /\
      d !! "reasons" = Some (key_reasons V ex)
  | Raise x =>
      exists before k after,
        required_keys = before ++ k :: after /\
        x = KeyError k /\ d !! k = None /\
        Forall (fun k' => is_Some (d !! k')) before
  end /\
  (forall k v, ~ In k required_keys ->
               generate_explanation (<[k := v]> d) = generate_explanation d).
Proof.
  split.
  - unfold generate_explanation, index, obind, required_keys.
    destruct (d !! "decision") eqn:E1.
    2:{ exists [], "decision", ["txn_risk"; "behavioural_risk"; "fraud_ring_risk"; "reasons"].
        repeat split; auto. }
    destruct (d !! "txn_risk") eqn:E2.
    2:{ exists ["decision"], "txn_risk", ["behavioural_risk"; "fraud_ring_risk"; "reasons"].
        repeat split; auto; repeat constructor; rewrite ?E1; eauto. }
    destruct (d !! "behavioural_risk") eqn:E3.
    2:{ exists ["decision"; "txn_risk"], "behavioural_risk", ["fraud_ring_risk"; "reasons"].
        repeat split; auto; repeat constructor; rewrite ?E1, ?E2; eauto. }
    destruct (d !! "fraud_ring_risk") eqn:E4.
    2:{ exists ["decision"; "txn_risk"; "behavioural_risk"], "fraud_ring_risk", ["reasons"].
        repeat split; auto; repeat constructor; rewrite ?E1, ?E2, ?E3; eauto. }
    destruct (d !! "reasons") eqn:E5.
    2:{ exists ["decision"; "txn_risk"; "behavioural_risk"; "fraud_ring_risk"], "reasons", [].
        repeat split; auto; repeat constructor; rewrite ?E1, ?E2, ?E3, ?E4; eauto. }
    simpl. auto.
  - intros k v Hk. unfold generate_explanation, index.
    unfold required_keys in Hk. simpl in Hk.
    rewrite !lookup_insert_ne by (intros ->; tauto).
    reflexivity.
Qed.

End ExplanationFacts.

(** ** The label and the score of [predict] *)

Section PredictFacts.

Import MLEngine.


Lemma py_round_comp x y ndigits :
  x == y -> Num.py_round x ndigits == Num.py_round y ndigits.
Proof.
  intros E. unfold Num.py_round.
  rewrite (round_half_even_comp (x * inject_Z (10 ^ Z.of_nat ndigits))
                                (y * inject_Z (10 ^ Z.of_nat ndigits))).
  - reflexivity.
  - now rewrite E.
Qed.




End PredictFacts.

(** ** The scenario engine *)

Section ScenarioFacts.

Import ScenarioEngine.

(** *** The two scores *)

Lemma py_round_1_exact (a : Z) : Num.py_round (inject_Z a / 10) 1 == inject_Z a / 10.
Proof. apply (py_round_exact a 1). Qed.

Lemma py_round_1_between (a b : Z) x :
  inject_Z a / 10 <= x <= inject_Z b / 10 ->
  inject_Z a / 10 <= Num.py_round x 1 <= inject_Z b / 10.
Proof. apply (py_round_between a b x 1). Qed.




(** Deciding the tests of [_calculate_anomaly_score] from the bounds at
    hand. *)
Ltac decide_tests :=
  repeat match goal with
         | |- context [Num.gtb ?a ?b] =>
           first [rewrite (proj2 (gtb_true a b)) by lra
                 |rewrite (proj2 (gtb_false a b)) by lra]
         | |- context [Num.ltb ?a ?b] =>
           first [rewrite (proj2 (ltb_true a b)) by lra
                 |rewrite (proj2 (ltb_false a b)) by lra]
         end.

Lemma anomaly_score_robotic b noise :
  100 < typing_speed b -> 95 < mouse_consistency b -> session_duration b < 60 ->
  is_robotic b = true -> 0 <= noise ->
  _calculate_anomaly_score b "robotic" noise == 95.
Proof.
  intros Ht Hm Hs Hr Hn. unfold _calculate_anomaly_score.
  decide_tests. rewrite Hr. cbn [orb String.eqb Ascii.eqb Bool.eqb].
  rewrite (py_round_comp _ (inject_Z 950 / 10)).
  - rewrite py_round_1_exact. reflexivity.
  - rewrite Q.min_l; [reflexivity | lra].
Qed.

Lemma anomaly_score_band b anomaly_type noise (base : Q) (lo hi : Z) :
  (forall n, _calculate_anomaly_score b anomaly_type n
             = Num.py_round (Qmin 95 (base + n)) 1) ->
  0 <= noise <= 10 -> base + 10 <= 95 ->
  inject_Z lo / 10 == base -> inject_Z hi / 10 == base + 10 ->
  base <= _calculate_anomaly_score b anomaly_type noise <= base + 10.
Proof.
  intros Heq [Hn0 Hn1] Hcap Elo Ehi. rewrite Heq.
  assert (E : Qmin 95 (base + noise) == base + noise) by (apply Q.min_r; lra).
  pose proof (py_round_comp _ _ 1 E) as EP.
  pose proof (py_round_1_between lo hi (base + noise)) as HB.
  set (P := Num.py_round (Qmin 95 (base + noise)) 1) in *.
  set (P' := Num.py_round (base + noise) 1) in *.
  set (a := inject_Z lo / 10) in *. set (c := inject_Z hi / 10) in *.
  assert (Hin : a <= base + noise <= c) by lra.
  specialize (HB Hin). lra.
Qed.

Lemma anomaly_score_unusual_timing b noise :
  20 <= typing_speed b <= 100 -> mouse_consistency b < 50 ->
  1200 < session_duration b -> is_robotic b = false -> 0 <= noise <= 10 ->
  40 <= _calculate_anomaly_score b "unusual_timing" noise <= 50.
Proof.
  intros [Ht1 Ht2] Hm Hs Hr Hn.
  assert (H : 40 <= _calculate_anomaly_score b "unusual_timing" noise <= 40 + 10).
  { apply (anomaly_score_band b "unusual_timing" noise 40 400 500);
      [|exact Hn | unfold Qle; simpl; lia | reflexivity | reflexivity].
    intros n. unfold _calculate_anomaly_score.
    decide_tests. rewrite Hr. cbn [orb String.eqb Ascii.eqb Bool.eqb].
    apply f_equal2; [|reflexivity]. apply f_equal2; [reflexivity|].
    apply f_equal2; reflexivity. }
  destruct H as [H1 H2]. split; [exact H1|].
  eapply Qle_trans; [exact H2|]. unfold Qle; simpl; lia.
Qed.

Lemma anomaly_score_device_mismatch b noise :
  20 <= typing_speed b <= 100 -> 50 <= mouse_consistency b <= 95 ->
  60 <= session_duration b <= 1200 -> is_robotic b = false -> 0 <= noise <= 10 ->
  0 <= _calculate_anomaly_score b "device_mismatch" noise <= 10.
Proof.
  intros [Ht1 Ht2] [Hm1 Hm2] [Hs1 Hs2] Hr Hn.
  assert (H : 0 <= _calculate_anomaly_score b "device_mismatch" noise <= 0 + 10).
  { apply (anomaly_score_band b "device_mismatch" noise 0 0 100);
      [|exact Hn | unfold Qle; simpl; lia | reflexivity | reflexivity].
    intros n. unfold _calculate_anomaly_score.
    decide_tests. rewrite Hr. cbn [orb String.eqb Ascii.eqb Bool.eqb].
    reflexivity. }
  destruct H as [H1 H2]. split; [exact H1|].
  eapply Qle_trans; [exact H2|]. unfold Qle; simpl; lia.
Qed.

(** *** The behavioral anomaly scenario *)

(** The anomaly score is never above 95, whatever is drawn. *)
Lemma anomaly_score_at_most_95 b anomaly_type noise :
  _calculate_anomaly_score b anomaly_type noise <= 95.
Proof.
  unfold _calculate_anomaly_score.
  match goal with |- Num.py_round (Qmin 95 ?x) 1 <= 95 => set (c := x) end.
  apply Qle_trans with (Num.py_round (inject_Z 950 / 10) 1).
  - apply py_round_mono. eapply Qle_trans; [apply Q.le_min_l|].
    unfold Qle; simpl; lia.
  - rewrite py_round_1_exact. unfold Qle; simpl; lia.
Qed.

(** X20: the type of the anomaly fixes the band of the scenario, whatever the
    noise drawn within the ranges of the source.  A robotic scenario always
    has the anomaly score 95 and the detection confidence 95; an unusual
    timing has a score between 40 and 50 and a confidence between 40 and 60;
    a device mismatch has a score between 0 and 10 and a confidence between 0
    and 20, and is the only one to flag a new device.  For a type that is
    none of the three the call raises [KeyError]. *)
Theorem anomaly_scenario_bands md5_hexdigest user_id transaction_data draws :
  anomaly_draws_in_range draws ->
  match generate_behavioral_anomaly_scenario md5_hexdigest user_id
          transaction_data draws with
  | Return sc =>
      let md := a_scenario_metadata sc in
      am_anomaly_score md <= 95 /\ am_detection_confidence md <= 95 /\
      am_anomaly_type md = anomaly_type draws /\
      (anomaly_type draws = "robotic" ->
       am_anomaly_score md == 95 /\ am_detection_confidence md == 95 /\
       is_new_device (synthetic_device sc) = false /\
       length (am_anomaly_indicators md) = 4%nat) /\
      (anomaly_type draws = "unusual_timing" ->
       40 <= am_anomaly_score md <= 50 /\
       40 <= am_detection_confidence md <= 60 /\
       is_new_device (synthetic_device sc) = false /\
       length (am_anomaly_indicators md) = 3%nat) /\
      (anomaly_type draws = "device_mismatch" ->
       0 <= am_anomaly_score md <= 10 /\
       0 <= am_detection_confidence md <= 20 /\
       is_new_device (synthetic_device sc) = true /\
       length (am_anomaly_indicators md) = 3%nat) /\
      In (anomaly_type draws) ["robotic"; "unusual_timing"; "device_mismatch"]
  | Raise x =>
      x = KeyError (anomaly_type draws) /\
      ~ In (anomaly_type draws) ["robotic"; "unusual_timing"; "device_mismatch"]
  end.
Proof.
  intros (Ht & Hm & Hs & Hn & Hc).
  unfold generate_behavioral_anomaly_scenario.
  destruct (anomaly_patterns !! anomaly_type draws) as [pat|] eqn:Hpat; cbn [obind].
  2:{ split; [reflexivity|].
      intros [E|[E|[E|[]]]]; rewrite <- E in Hpat; discriminate Hpat. }
  cbn [a_scenario_metadata am_anomaly_score am_detection_confidence
       am_anomaly_type am_anomaly_indicators synthetic_device is_new_device].
  split; [apply anomaly_score_at_most_95|].
  split; [apply Q.le_min_l|].
  split; [reflexivity|].
  assert (Hkeys : In (anomaly_type draws)
                     ["robotic"; "unusual_timing"; "device_mismatch"]).
  { unfold anomaly_patterns in Hpat.
    destruct (decide (anomaly_type draws = "robotic")) as [E|N1]; [simpl; auto|].
    destruct (decide (anomaly_type draws = "unusual_timing")) as [E|N2]; [simpl; auto|].
    destruct (decide (anomaly_type draws = "device_mismatch")) as [E|N3]; [simpl; auto|].
    rewrite !lookup_insert_ne in Hpat by congruence.
    rewrite lookup_empty in Hpat. discriminate Hpat. }
  split; [|split; [|split; [|exact Hkeys]]].
  - intros E. rewrite E in *.
    assert (pat = mkPattern 150 99 45 true None) as -> by (vm_compute in Hpat; congruence).
    cbn [p_typing_speed p_mouse_consistency p_session_duration p_is_robotic
         p_new_device default].
    match goal with
    | |- ?sc == 95 /\ _ => assert (Hsc : sc == 95)
    end.
    { apply anomaly_score_robotic;
        cbn [typing_speed mouse_consistency session_duration is_robotic]; lra. }
    split; [exact Hsc|]. split; [|split; reflexivity].
    rewrite Q.min_l; [reflexivity|]. rewrite Hsc. lra.
  - intros E. rewrite E in *.
    assert (pat = mkPattern 30 40 1800 false None) as -> by (vm_compute in Hpat; congruence).
    cbn [p_typing_speed p_mouse_consistency p_session_duration p_is_robotic
         p_new_device default].
    match goal with
    | |- 40 <= ?sc <= 50 /\ _ => assert (Hsc : 40 <= sc <= 50)
    end.
    { apply anomaly_score_unusual_timing;
        cbn [typing_speed mouse_consistency session_duration is_robotic];
        first [reflexivity | lra]. }
    split; [exact Hsc|]. split; [|split; reflexivity].
    rewrite Q.min_r by lra. lra.
  - intros E. rewrite E in *.
    assert (pat = mkPattern 60 70 120 false (Some true)) as ->
        by (vm_compute in Hpat; congruence).
    cbn [p_typing_speed p_mouse_consistency p_session_duration p_is_robotic
         p_new_device default].
    match goal with
    | |- 0 <= ?sc <= 10 /\ _ => assert (Hsc : 0 <= sc <= 10)
    end.
    { apply anomaly_score_device_mismatch;
        cbn [typing_speed mouse_consistency session_duration is_robotic];
        first [reflexivity | lra]. }
    split; [exact Hsc|]. split; [|split; reflexivity].
    rewrite Q.min_r by lra. lra.
Qed.

Lemma anomaly_scenario_bands_witness :
  match generate_behavioral_anomaly_scenario (fun s => s) "user_001" ∅
          robotic_draws with
  | Return sc => am_anomaly_score (a_scenario_metadata sc) == 95
  | Raise _ => False
  end.
Proof.
  pose proof (anomaly_scenario_bands (fun s => s) "user_001" ∅ robotic_draws) as H.
  destruct (generate_behavioral_anomaly_scenario (fun s => s) "user_001" ∅
              robotic_draws) as [sc|x].
  - apply H; [|reflexivity].
    unfold anomaly_draws_in_range, robotic_draws, Qle; simpl; lia.
  - apply H.
    + unfold anomaly_draws_in_range, robotic_draws, Qle; simpl; lia.
    + simpl. auto.
Defined.

(** *** The fraud ring scenario *)

Lemma sum_list_Permutation (l l' : list nat) :
  l ≡ₚ l' -> sum_list l = sum_list l'.
Proof.
  induction 1 as [|x l l' _ IH|x y l|l l' l'' _ IH1 _ IH2]; simpl; lia.
Qed.

Lemma role_total_insert_fresh (m : gmap string nat) k v :
  m !! k = None -> role_total (<[k := v]> m) = (v + role_total m)%nat.
Proof.
  intros Hk. unfold role_total.
  rewrite (sum_list_Permutation _ (snd <$> ((k, v) :: map_to_list m))).
  - reflexivity.
  - apply fmap_Permutation. now apply map_to_list_insert.
Qed.

(** Counting one more member of a role adds one to the total. *)
Lemma role_total_count (m : gmap string nat) k :
  role_total (<[k := (default 0%nat (m !! k) + 1)%nat]> m) = (role_total m + 1)%nat.
Proof.
  destruct (m !! k) as [v|] eqn:Hk; cbn [default].
  - rewrite <- (insert_delete_eq m k (v + 1)%nat).
    rewrite role_total_insert_fresh by apply lookup_delete_eq.
    rewrite <- (insert_delete_id m k v Hk) at 2.
    rewrite role_total_insert_fresh by apply lookup_delete_eq.
    lia.
  - rewrite role_total_insert_fresh by exact Hk. lia.
Qed.

Lemma role_total_empty : role_total ∅ = 0%nat.
Proof. unfold role_total. now rewrite map_to_list_empty. Qed.

Section Loop.

Variables (ring_id shared_device_id shared_ip : string) (join_date : nat -> string).

Local Abbreviation loop := (ring_loop ring_id shared_device_id shared_ip join_date).
Local Abbreviation member := (ring_member_at ring_id shared_device_id shared_ip join_date).

Lemma loop_S n :
  loop (S n) = add_member ring_id shared_device_id shared_ip join_date (loop n) n.
Proof. unfold ring_loop. rewrite seq_S, fold_left_app. reflexivity. Qed.

(** The members the loop builds. *)
Lemma loop_members n : fst (loop n) = map member (seq 0 n).
Proof.
  induction n as [|n IH]; [reflexivity|].
  rewrite loop_S. destruct (loop n) as [ms rd]. cbn [fst] in *.
  rewrite seq_S, map_app. cbn [add_member fst]. now rewrite IH.
Qed.

(** The roles it counts. *)
Lemma loop_total n : role_total (snd (loop n)) = n.
Proof.
  induction n as [|n IH]; [apply role_total_empty|].
  rewrite loop_S. destruct (loop n) as [ms rd]. cbn [snd add_member] in *.
  rewrite role_total_count. lia.
Qed.

Lemma loop_dom n :
  dom (snd (loop n)) = list_to_set (member_role <$> seq 0 n).
Proof.
  induction n as [|n IH]; [reflexivity|].
  rewrite loop_S. destruct (loop n) as [ms rd]. cbn [snd add_member] in *.
  rewrite dom_insert_L, IH, seq_S, fmap_app, list_to_set_app_L. simpl.
  rewrite (right_id_L ∅ (∪)). apply (comm_L (∪)).
Qed.

Lemma member_role_in_roles i : member_role i ∈ ring_roles.
Proof.
  unfold member_role.
  assert (H : (i mod length ring_roles < 5)%nat).
  { apply Nat.mod_upper_bound. discriminate. }
  destruct (i mod length ring_roles)%nat as [|[|[|[|[|k]]]]]; simpl;
    [set_solver ..| lia].
Qed.

Lemma loop_roles n :
  (5 <= n)%nat -> dom (snd (loop n)) = list_to_set ring_roles.
Proof.
  intros H. rewrite loop_dom. apply set_eq. intros r.
  rewrite !elem_of_list_to_set. split.
  - intros Hr. apply list_elem_of_fmap in Hr as (i & -> & _).
    apply member_role_in_roles.
  - intros Hr.
    assert (Hfive : r ∈ member_role <$> seq 0 5) by exact Hr.
    apply list_elem_of_fmap in Hfive as (i & -> & Hi).
    apply list_elem_of_fmap. exists i. split; [reflexivity|].
    apply elem_of_seq in Hi. apply elem_of_seq. lia.
Qed.

Lemma loop_size n : (5 <= n)%nat -> size (snd (loop n)) = 5%nat.
Proof.
  intros H. rewrite <- size_dom, loop_roles by exact H.
  rewrite size_list_to_set; [reflexivity | compute_done].
Qed.

End Loop.

Lemma extend_registry_lookup registry key ids :
  extend_registry registry key ids !! key
  = Some (default [] (registry !! key) ++ ids).
Proof.
  unfold extend_registry.
  destruct (registry !! key) as [old|] eqn:E.
  - now rewrite lookup_insert_eq, E.
  - now rewrite !lookup_insert_eq.
Qed.

Lemma extend_registry_other registry key ids k :
  k <> key -> extend_registry registry key ids !! k = registry !! k.
Proof.
  intros Hk. unfold extend_registry.
  destruct (registry !! key); rewrite !lookup_insert_ne by congruence; reflexivity.
Qed.

(** The run of [generate_fraud_ring_scenario], with its loop in closed
    form. *)
Lemma generate_fraud_ring_scenario_run md5_hexdigest base_user_id transaction_data
    draws self :
  let ring_id :=
    "ring_" +:+ String.substring 0 8 (md5_hexdigest base_user_id) in
  let dev := ring_device md5_hexdigest base_user_id in
  let ip := ring_ip draws in
  let l := ring_loop ring_id dev ip (join_date draws) (ring_size draws) in
  let devices := extend_registry (shared_devices self) dev (map m_user_id (fst l)) in
  let ips := extend_registry (shared_ips self) ip (map m_user_id (fst l)) in
  generate_fraud_ring_scenario md5_hexdigest base_user_id transaction_data draws self
  = (Return
       {| fields :=
            <["ip_address" := JStr ip]>
              (<["device_id" := JStr dev]>
                 (delete "scenario_metadata" transaction_data));
          scenario_metadata :=
            {| md_type := "fraud_ring";
               md_ring_id := ring_id;
               md_ring_size := ring_size draws;
               md_role_density := snd l;
               md_confidence :=
                 _calculate_ring_confidence (Z.of_nat (ring_size draws))
                   (Z.of_nat (size (snd l))) (variance draws);
               md_ring_members := fst l;
               md_shared_device_users := length (default [] (devices !! dev));
               md_shared_ip_users := length (default [] (ips !! ip)) |} |},
     {| fraud_ring_members := fraud_ring_members self;
        shared_devices := devices; shared_ips := ips |}).
Proof.
  cbv zeta. unfold generate_fraud_ring_scenario, ring_device, ring_ip, ring_loop.
  destruct (fold_left _ _ _) as [ms rd]. reflexivity.
Qed.

(** X21: a fraud ring scenario never fails.  Its ring has as many members as
    drawn, all on the one device and the one address of the ring, with the
    roles of [ring_roles] handed out in turn.  The role density counts every
    member once: its counts add up to the ring size, and from five members on
    all five roles occur. *)
Theorem fraud_ring_members_and_roles md5_hexdigest base_user_id transaction_data
    draws self :
  exists sc,
    fst (generate_fraud_ring_scenario md5_hexdigest base_user_id transaction_data
           draws self) = Return sc /\
    let md := scenario_metadata sc in
    let n := ring_size draws in
    md_type md = "fraud_ring" /\
    md_ring_size md = n /\
    length (md_ring_members md) = n /\
    map m_role (md_ring_members md) = map member_role (seq 0 n) /\
    Forall (fun m => m_device_id m = ring_device md5_hexdigest base_user_id /\
                     m_ip_address m = ring_ip draws) (md_ring_members md) /\
    role_total (md_role_density md) = n /\
    ((5 <= n)%nat ->
     size (md_role_density md) = 5%nat /\
     forall r, In r ring_roles -> is_Some (md_role_density md !! r)).
Proof.
  rewrite generate_fraud_ring_scenario_run. cbv zeta.
  eexists. split; [reflexivity|].
  cbn [scenario_metadata md_type md_ring_size md_ring_members md_role_density].
  rewrite loop_members.
  split; [reflexivity|]. split; [reflexivity|].
  split; [now rewrite length_map, length_seq|].
  split; [now rewrite map_map|].
  split; [apply List.Forall_map, List.Forall_forall; intros i _; split; reflexivity|].
  split; [apply loop_total|].
  intros Hn. split; [now apply loop_size|].
  intros r Hr. apply elem_of_dom. rewrite loop_roles by exact Hn.
  apply elem_of_list_to_set. now apply list_elem_of_In.
Qed.

Lemma fraud_ring_members_and_roles_witness :
  exists sc,
    fst (generate_fraud_ring_scenario (fun s => s) "user_001" ∅ ring_of_six __init__)
    = Return sc /\
    size (md_role_density (scenario_metadata sc)) = 5%nat.
Proof.
  destruct (fraud_ring_members_and_roles (fun s => s) "user_001" ∅ ring_of_six __init__)
    as (sc & Hsc & _ & _ & _ & _ & _ & _ & H).
  exists sc. split; [exact Hsc|].
  apply H. simpl. lia.
Defined.



(** X23: what a fraud ring scenario leaves behind.  The members are added to
    the users of the ring's device and of its address, after those already
    registered there, and the counts reported are the users registered before
    plus the ring size; every other device and address, and
    [fraud_ring_members], stay as they were.  The returned dict carries the
    device and the address of the ring and every other key of
    [transaction_data] unchanged.  A second scenario for the same user on the
    same address therefore reports the users of the first again: its counts
    are those of the first plus its own ring size. *)
Theorem fraud_ring_shared_users md5_hexdigest base_user_id transaction_data
    draws self :
  let run := generate_fraud_ring_scenario md5_hexdigest base_user_id
               transaction_data draws self in
  let dev := ring_device md5_hexdigest base_user_id in
  let ip := ring_ip draws in
  exists sc,
    fst run = Return sc /\
    let md := scenario_metadata sc in
    md_shared_device_users md
    = (length (default [] (shared_devices self !! dev)) + ring_size draws)%nat /\
    md_shared_ip_users md
    = (length (default [] (shared_ips self !! ip)) + ring_size draws)%nat /\
    shared_devices (snd run) !! dev
    = Some (default [] (shared_devices self !! dev)
            ++ map m_user_id (md_ring_members md)) /\
    shared_ips (snd run) !! ip
    = Some (default [] (shared_ips self !! ip)
            ++ map m_user_id (md_ring_members md)) /\
    (forall k, k <> dev -> shared_devices (snd run) !! k = shared_devices self !! k) /\
    (forall k, k <> ip -> shared_ips (snd run) !! k = shared_ips self !! k) /\
    fraud_ring_members (snd run) = fraud_ring_members self /\
    fields sc !! "device_id" = Some (JStr dev) /\
    fields sc !! "ip_address" = Some (JStr ip) /\
    (forall k, k <> "device_id" -> k <> "ip_address" -> k <> "scenario_metadata" ->
               fields sc !! k = transaction_data !! k) /\
    (forall data' draws',
        ring_ip draws' = ip ->
        exists sc',
          fst (generate_fraud_ring_scenario md5_hexdigest base_user_id data' draws'
                 (snd run)) = Return sc' /\
          md_shared_device_users (scenario_metadata sc')
          = (md_shared_device_users md + ring_size draws')%nat /\
          md_shared_ip_users (scenario_metadata sc')
          = (md_shared_ip_users md + ring_size draws')%nat).
Proof.
  cbv zeta.
  assert (Hlen : forall rid d i jd n,
             length (map m_user_id (fst (ring_loop rid d i jd n))) = n).
  { intros. now rewrite loop_members, !length_map, length_seq. }
  rewrite generate_fraud_ring_scenario_run. cbv zeta. cbn [fst snd].
  eexists. split; [reflexivity|].
  cbn [scenario_metadata md_shared_device_users md_shared_ip_users md_ring_members
       shared_devices shared_ips fraud_ring_members fields].
  rewrite !extend_registry_lookup. cbn [default from_option id].
  rewrite !length_app, !Hlen.
  split; [reflexivity|]. split; [reflexivity|].
  split; [reflexivity|]. split; [reflexivity|].
  split; [intros k Hk; now apply extend_registry_other|].
  split; [intros k Hk; now apply extend_registry_other|].
  split; [reflexivity|].
  split; [rewrite lookup_insert_ne by discriminate; apply lookup_insert_eq|].
  split; [apply lookup_insert_eq|].
  split.
  { intros k H1 H2 H3.
    rewrite !lookup_insert_ne by congruence. now apply lookup_delete_ne. }
  intros data' draws' Hip.
  rewrite generate_fraud_ring_scenario_run. cbv zeta. cbn [fst snd].
  eexists. split; [reflexivity|].
  cbn [scenario_metadata md_shared_device_users md_shared_ip_users
       shared_devices shared_ips].
  rewrite Hip.
  rewrite !extend_registry_lookup. cbn [default from_option id].
  rewrite !length_app, !Hlen. split; reflexivity.
Qed.

Lemma fraud_ring_shared_users_witness :
  exists sc sc',
    fst (generate_fraud_ring_scenario (fun s => s) "user_001" ∅ ring_of_six __init__)
    = Return sc /\
    fst (generate_fraud_ring_scenario (fun s => s) "user_001" ∅ ring_of_six
           (snd (generate_fraud_ring_scenario (fun s => s) "user_001" ∅ ring_of_six
                   __init__)))
    = Return sc' /\
    md_shared_device_users (scenario_metadata sc) = 6%nat /\
    md_shared_device_users (scenario_metadata sc') = 12%nat.
Proof.
  destruct (fraud_ring_shared_users (fun s => s) "user_001" ∅ ring_of_six __init__)
    as (sc & Hsc & Hdev & _ & _ & _ & _ & _ & _ & _ & _ & _ & Hagain).
  destruct (Hagain ∅ ring_of_six eq_refl) as (sc' & Hsc' & Hdev' & _).
  exists sc, sc'. split; [exact Hsc|]. split; [exact Hsc'|].
  split.
  - rewrite Hdev. reflexivity.
  - rewrite Hdev', Hdev. reflexivity.
Defined.

End ScenarioFacts.

(** ** Retraining *)

Section RetrainingFacts.

Import MLEngine.

(** One [save_transaction]: the row is appended, and the model is fitted
    on all rows when their number is a multiple of 10. *)
Lemma save_transaction_run features label st :
  let rows := default [] (data_file st) ++ [<["label" := label]> features] in
  let due := (length rows mod 10 =? 0)%nat in
  save_transaction features label st
  = (Return tt,
     {| data_file := Some rows;
        is_trained := is_trained st || due;
        fits := fits st ++ (if due then [length rows] else []);
        saved := (saved st + (if due then 1 else 0))%nat |}).
Proof.
  cbv zeta. unfold save_transaction, retrain_model, bind, get, put, ret.
  assert (E : match data_file st with
              | Some rows => rows ++ [<["label" := label]> features]
              | None => [<["label" := label]> features]
              end = default [] (data_file st) ++ [<["label" := label]> features]).
  { destruct (data_file st); reflexivity. }
  rewrite E.
  set (rows := default [] (data_file st) ++ [<["label" := label]> features]).
  assert (Hpos : (1 <= length rows)%nat).
  { subst rows. rewrite length_app. simpl. lia. }
  destruct (length rows mod 10 =? 0)%nat eqn:D.
  - apply Nat.eqb_eq in D.
    assert (H10 : (10 <= length rows)%nat).
    { destruct (le_lt_dec 10 (length rows)) as [H|H]; [exact H|].
      rewrite Nat.mod_small in D by exact H. lia. }
    rewrite (proj2 (Nat.leb_le _ _) H10). cbn [andb].
    assert (H5 : (length rows <? 5)%nat = false) by (apply Nat.ltb_ge; lia).
    rewrite H5. cbn [is_trained fits saved data_file].
    rewrite orb_true_r. f_equal. f_equal. lia.
  - rewrite andb_false_r. cbn [is_trained fits saved data_file].
    rewrite orb_false_r, app_nil_r. f_equal. f_equal. lia.
Qed.

(** X25: saving the transactions [cs] one after the other never fails and
    appends one row per transaction to the training file, the label stored
    under the key [label].  The model is refitted, on all rows so far, exactly
    when the number of rows reaches a multiple of 10, and saved each time: the
    fits added are the multiples of 10 among the row counts passed through.
    The guard of [retrain_model] against fewer than five rows never stops a
    retraining started by [save_transaction]. *)
Theorem save_transaction_retrains_every_tenth
    (cs : list (gmap string Q * Q)) (st : ml_state) :
  let m := length (default [] (data_file st)) in
  let rows := map (fun c => <["label" := snd c]> (fst c)) cs in
  let due := List.filter (fun k => (k mod 10 =? 0)%nat) (seq (S m) (length cs)) in
  run_all (map (fun c => save_transaction (fst c) (snd c)) cs) st
  = (Return (map (fun _ => tt) cs),
     {| data_file :=
          match cs with
          | [] => data_file st
          | _ => Some (default [] (data_file st) ++ rows)
          end;
        is_trained := is_trained st || match due with [] => false | _ => true end;
        fits := fits st ++ due;
        saved := (saved st + length due)%nat |}).
Proof.
  revert st. induction cs as [|c cs IH]; intros st.
  - cbn. unfold ret. destruct st as [f t fi sa]. cbn.
    rewrite orb_false_r, app_nil_r, Nat.add_0_r. reflexivity.
  - cbn [map]. rewrite run_all_cons, save_transaction_run. cbv zeta beta iota.
    rewrite IH. cbn [data_file is_trained fits saved default from_option id].
    rewrite length_app. cbn [length].
    replace (length (default [] (data_file st)) + 1)%nat
      with (S (length (default [] (data_file st)))) by lia.
    set (m := length (default [] (data_file st))).
    cbn [seq List.filter length map].
    destruct (S m mod 10 =? 0)%nat eqn:D.
    + f_equal. f_equal.
      * destruct cs; [reflexivity|]. now rewrite <- app_assoc.
      * rewrite orb_true_r. reflexivity.
      * now rewrite <- app_assoc.
      * cbn [length]. lia.
    + f_equal. f_equal.
      * destruct cs; [reflexivity|]. now rewrite <- app_assoc.
      * now rewrite orb_false_r.
      * now rewrite app_nil_r.
      * lia.
Qed.

End RetrainingFacts.
